(** * Demand forecasting and inventory optimisation engine (ai_analytics.py)

    A shallow embedding of the three classes of [src/ai_analytics.py]:
    [DemandForecaster], [PriceOptimizer] and [AutoReorderSystem].

    Conventions of the embedding.
    - Python floats (and numpy float64) are exact rationals [Q]; integers are
      [Z].  Rounding, comparisons, sums and quotients are the exact ones.
    - A Python [dict] whose keys are inserted one by one is an insertion-ordered
      association list ([Dict]); the in-process registries [self.models] and
      [self.scalers] and the [models/] directory are [gmap]s.
    - Every function of the source is wrapped in [try: ... except Exception],
      so the fallible steps live in the error monad [Exc] and the wrapper
      turns a raised message into the dictionary [{"error": msg}].
    - numpy, scipy, scikit-learn, pandas and the SQL session are external: the
      functions and statements the source calls are the fields of [Library]
      and [Session]. *)

From stdpp Require Import gmap strings list fin_maps pretty.
From Stdlib Require Import QArith Qround Qabs Qpower Lqa Lia ZArith Permutation.
From Stdlib Require Import Sorted.

Set Default Proof Using "Type".
Set Warnings "-register-all".
Local Open Scope string_scope.
Local Open Scope Z_scope.

(** ** Exceptions *)

(** [inl msg] is a raised exception whose [str(e)] is [msg]. *)
Definition Exc (A : Type) : Type := (string + A)%type.

Definition raise {A} (msg : string) : Exc A := inl msg.
Definition ok {A} (x : A) : Exc A := inr x.

Definition bind {A B} (m : Exc A) (k : A -> Exc B) : Exc B :=
  match m with
  | inl e => inl e
  | inr x => k x
  end.

Notation "'let?' x ':=' m 'in' k" := (bind m (fun x => k))
  (at level 10, x pattern, m at level 100, k at level 200).

(** ** Numbers *)

Module Num.

Local Open Scope Q_scope.

Definition Qltb (a b : Q) : bool := negb (Qle_bool b a).

(** The built-in [max(a, b)]: [b] only when it is strictly larger. *)
Definition py_max (a b : Q) : Q := if Qltb a b then b else a.

Definition Qsum (l : list Q) : Q := foldr Qplus 0 l.

Definition len {A} (l : list A) : Z := Z.of_nat (length l).

(** The last [n] elements: pandas [tail(n)] and the slice [a[-n:]]
    for [n >= 1]. *)
Definition tail {A} (n : nat) (l : list A) : list A :=
  drop (length l - n) l.

(** [a[-n]] for [1 <= n <= len(a)]. *)
Definition from_end (n : nat) (l : list Q) : Q :=
  nth (length l - n) l 0.

(** [np.mean] of a non-empty array. *)
Definition mean (l : list Q) : Q := Qsum l / inject_Z (len l).

(** Nearest integer, halves to the even neighbour. *)
Definition round_half_even (x : Q) : Z :=
  let f := Qfloor x in
  match Qcompare (x - inject_Z f) (1 # 2) with
  | Lt => f
  | Gt => (f + 1)%Z
  | Eq => if Z.even f then f else (f + 1)%Z
  end.

(** The built-in [round(x, ndigits)] on a float. *)
Definition py_round (x : Q) (ndigits : nat) : Q :=
  let s := inject_Z (10 ^ Z.of_nat ndigits) in
  inject_Z (round_half_even (x * s)) / s.

End Num.

(** ** Python values and dictionaries *)

Inductive Value : Type :=
| VNone
| VBool (b : bool)
| VInt (z : Z)
| VFloat (q : Q)
| VStr (s : string)
| VList (l : list (list (string * Value))).

(** An insertion-ordered [dict] with string keys. *)
Definition Dict : Type := list (string * Value).

Module PyDict.

Fixpoint get (d : Dict) (k : string) : option Value :=
  match d with
  | [] => None
  | (k', v) :: d' => if String.eqb k' k then Some v else get d' k
  end.

(** [k in d] *)
Definition mem (k : string) (d : Dict) : bool :=
  match get d k with Some _ => true | None => false end.

(** [d[k] = v]: overwrite in place, or append a new key at the end. *)
Fixpoint set (d : Dict) (k : string) (v : Value) : Dict :=
  match d with
  | [] => [(k, v)]
  | (k', v') :: d' =>
      if String.eqb k' k then (k', v) :: d' else (k', v') :: set d' k v
  end.

Definition keys (d : Dict) : list string := map fst d.

End PyDict.

Definition error_dict (msg : string) : Dict := [("error", VStr msg)].

(** The [except Exception as e: return {"error": str(e)}] wrapper. *)
Definition catch_error (r : Exc Dict) : Dict :=
  match r with
  | inl msg => error_dict msg
  | inr d => d
  end.

Definition is_error (d : Dict) : bool := PyDict.mem "error" d.

(** ** Calendar *)

(** A [datetime] is a number of seconds since 1970-01-01 00:00. *)
Definition Timestamp : Type := Z.

Module Calendar.

Definition seconds_per_day : Z := 86400.

(** [timedelta(days=n)] *)
Definition timedelta (days : Z) : Z := days * seconds_per_day.

Definition day_number (t : Timestamp) : Z := t / seconds_per_day.

(** Year, month and day of the proleptic Gregorian calendar. *)
Definition civil_from_days (days : Z) : Z * Z * Z :=
  let z := days + 719468 in
  let era := z / 146097 in
  let doe := z - era * 146097 in
  let yoe := (doe - doe / 1460 + doe / 36524 - doe / 146096) / 365 in
  let doy := doe - (365 * yoe + yoe / 4 - yoe / 100) in
  let mp := (5 * doy + 2) / 153 in
  let d := doy - (153 * mp + 2) / 5 + 1 in
  let m := if mp <? 10 then mp + 3 else mp - 9 in
  let y := yoe + era * 400 in
  (if m <=? 2 then y + 1 else y, m, d).

(** [date.dayofweek]: Monday is 0. *)
Definition dayofweek (t : Timestamp) : Z := (day_number t + 3) mod 7.

Definition month (t : Timestamp) : Z := snd (fst (civil_from_days (day_number t))).

Definition quarter (t : Timestamp) : Z := (month t - 1) / 3 + 1.

Definition two_digits (n : Z) : string :=
  if n <? 10 then "0" ++ pretty n else pretty n.

(** [date.strftime('%Y-%m-%d')] for years from 1000 on. *)
Definition strftime (t : Timestamp) : string :=
  let '(y, m, d) := civil_from_days (day_number t) in
  pretty y ++ "-" ++ two_digits m ++ "-" ++ two_digits d.

End Calendar.

(** ** The external world *)

(** One row of the [get_sales_data] query. *)
Record SalesRow : Type := {
  sr_product_id : Z;
  sr_sale_date : Timestamp;
  sr_quantity : Z;
  sr_price : Q;
  sr_product_name : string;
  sr_category_id : Z;
  sr_location_id : Z
}.

(** One row of the price history query of [get_price_elasticity]. *)
Record PriceRow : Type := {
  pr_price : Q;
  pr_quantity : Z;
  pr_sale_date : Timestamp
}.

(** [SELECT price, cost, name FROM products]; the columns are nullable. *)
Record ProductRow : Type := {
  p_price : option Q;
  p_cost : option Q;
  p_name : string
}.

(** One row of the low-stock query of [generate_reorder_suggestions]. *)
Record LowStockRow : Type := {
  ls_product_id : Z;
  ls_location_id : Z;
  ls_stock_quantity : Z;
  ls_name : string;
  ls_reorder_level : Z;
  ls_reorder_quantity : Z
}.

(** The SQLAlchemy session [self.db]: one field per SQL statement of the
    source, each returning the fetched rows or raising. *)
Record Session : Type := {
  (** [get_sales_data]: optional product filter, [start_date]. *)
  select_sales : option Z -> Timestamp -> Exc (list SalesRow);
  (** [get_price_elasticity]: product, [start_date]. *)
  select_price_history : Z -> Timestamp -> Exc (list PriceRow);
  (** [SELECT ... FROM products WHERE product_id = :product_id], [fetchone]. *)
  select_product : Z -> Exc (option ProductRow);
  (** [SELECT AVG(daily_quantity)]: product, optional location, [start_date];
      [None] is SQL NULL. *)
  select_avg_daily_sales : Z -> option Z -> Timestamp -> Exc (option Q);
  (** Daily totals for a product at a location since [start_date]. *)
  select_daily_sales : Z -> Z -> Timestamp -> Exc (list (Z * Q));
  (** Product/location pairs with [stock_quantity <= reorder_level]. *)
  select_low_stock : option Z -> Exc (list LowStockRow)
}.

(** A fitted scikit-learn estimator: [predict] on one feature row, and
    whether the object has the attribute [coef_]. *)
Record Model : Type := {
  has_coef_ : bool;
  predict : list Q -> Exc Q
}.

(** A fitted [StandardScaler]. *)
Record Scaler : Type := {
  transform : list Q -> Exc (list Q)
}.

Inductive ModelName : Type := random_forest | gradient_boosting | linear_regression.

Definition model_name_str (n : ModelName) : string :=
  match n with
  | random_forest => "random_forest"
  | gradient_boosting => "gradient_boosting"
  | linear_regression => "linear_regression"
  end.

(** numpy, scipy, scikit-learn, pandas and the float formatting of Python. *)
Record Library : Type := {
  np_sqrt : Q -> Q;
  (** [np.sin(2 * np.pi * x)] and [np.cos(2 * np.pi * x)] *)
  sin_2pi : Q -> Q;
  cos_2pi : Q -> Q;
  np_log : Q -> Q;
  (** [x ** y] on floats *)
  float_pow : Q -> Q -> Q;
  (** [scipy.stats.norm.ppf] *)
  norm_ppf : Q -> Q;
  (** Lines 110-145 of [train_demand_model]: daily aggregation, gap filling,
      [extract_features], [dropna] and the choice of the feature columns;
      one pair (feature row, quantity) per remaining day. *)
  training_table : Z -> list SalesRow -> Exc (list (list Q * Q));
  (** [StandardScaler().fit] *)
  scaler_fit : list (list Q) -> Exc Scaler;
  (** [RandomForestRegressor(...)], [GradientBoostingRegressor(...)] and
      [LinearRegression()] followed by [fit(X, y)]. *)
  model_fit : ModelName -> list (list Q) -> list Q -> Exc Model;
  (** [pd.cut(bins=5)], [groupby], [agg] and [dropna] of
      [get_price_elasticity]: mean price and summed quantity per bucket. *)
  price_buckets : list PriceRow -> Exc (list (Q * Q));
  (** [LinearRegression().fit(x, y).coef_[0]] on one feature. *)
  fit_slope : list Q -> list Q -> Exc Q;
  (** [str(x)], [f"{x:.1f}"] and [f"{x:.2f}"] *)
  str_float : Q -> string;
  format_1f : Q -> string;
  format_2f : Q -> string
}.

Fixpoint mapM {A B} (f : A -> Exc B) (l : list A) : Exc (list B) :=
  match l with
  | [] => ok []
  | x :: l' =>
      let? y := f x in
      let? ys := mapM f l' in
      ok (y :: ys)
  end.

(** [float(v)] and [bool(v)] on the values the engine handles. *)
Definition to_float (v : Value) : Exc Q :=
  match v with
  | VInt z => ok (inject_Z z)
  | VFloat q => ok q
  | VBool b => ok (if b then 1%Q else 0%Q)
  | _ => raise "float() argument must be a string or a real number"
  end.

(** [a / b] on Python numbers *)
Definition true_div (a b : Q) : Exc Q :=
  if Qeq_bool b 0 then raise "division by zero" else ok (a / b)%Q.

(** [d[k]] *)
Definition getitem (d : Dict) (k : string) : Exc Value :=
  match PyDict.get d k with
  | Some v => ok v
  | None => raise k
  end.

(** ** DemandForecaster *)

(** What [joblib.dump] leaves in a file. *)
Inductive Artifact : Type :=
| ModelArtifact (m : Model)
| ScalerArtifact (s : Scaler).

(** The mutable state of a forecaster: the two in-process registries and
    the files under [self.model_path]. *)
Record DemandForecaster : Type := {
  models : gmap Z Model;
  scalers : gmap Z Scaler;
  files : gmap string Artifact
}.

Module Forecaster.
Section WithWorld.

Context (lib : Library) (db : Session).
(** [datetime.now()] *)
Context (now : Timestamp).

Import Num.
Local Open Scope Q_scope.

Definition model_path : string := "models/".

Definition model_filename (product_id : Z) : string :=
  model_path ++ "demand_model_" ++ pretty product_id ++ ".joblib".

Definition scaler_filename (product_id : Z) : string :=
  model_path ++ "scaler_" ++ pretty product_id ++ ".joblib".

(** [if product_id:] is false on [None] and on [0]. *)
Definition truthy_id (id : option Z) : option Z :=
  match id with
  | Some z => if (z =? 0)%Z then None else Some z
  | None => None
  end.

Definition get_sales_data (product_id : option Z) (days_back : Z)
  : Exc (list SalesRow) :=
  let start_date := (now - Calendar.timedelta days_back)%Z in
  let? df := select_sales db (truthy_id product_id) start_date in
  match df with
  | [] => ok []
  | _ => ok df
  end.

(** [train_test_split(X, y, test_size=0.2, shuffle=False)]: the last
    [ceil(0.2 * n)] rows are held out. *)
Definition train_test_split {A} (rows : list A) : list A * list A :=
  let n := length rows in
  let n_test := Z.to_nat ((Z.of_nat n + 4) / 5) in
  (take (n - n_test) rows, drop (n - n_test) rows).

Definition mean_absolute_error (y_true y_pred : list Q) : Q :=
  mean (zip_with (fun a b => Qabs (a - b)) y_true y_pred).

(** The loop state of the model selection: [best_model], [best_score]
    ([None] is [float('inf')]) and [best_model_name]. *)
Record Best : Type := {
  best_model : option Model;
  best_score : option Q;
  best_model_name : option ModelName
}.

Definition initial_best : Best :=
  {| best_model := None; best_score := None; best_model_name := None |}.

(** [mae < best_score] *)
Definition improves (mae : Q) (best_score : option Q) : bool :=
  match best_score with
  | None => true
  | Some b => Qltb mae b
  end.

(** The candidates in the insertion order of the [models] dictionary. *)
Definition candidates : list ModelName :=
  [random_forest; gradient_boosting; linear_regression].

Section Selection.

Context (X_train X_train_scaled : list (list Q)) (y_train : list Q).
Context (X_test X_test_scaled : list (list Q)) (y_test : list Q).

(** Fit one candidate and score it on the held-out rows. *)
Definition fit_and_score (name : ModelName) : Exc (Model * Q) :=
  let? fitted_pred :=
    match name with
    | linear_regression =>
        let? model := model_fit lib name X_train_scaled y_train in
        let? y_pred := mapM (predict model) X_test_scaled in
        ok (model, y_pred)
    | _ =>
        let? model := model_fit lib name X_train y_train in
        let? y_pred := mapM (predict model) X_test in
        ok (model, y_pred)
    end in
  let '(model, y_pred) := fitted_pred in
  ok (model, mean_absolute_error y_test y_pred).

(** [for name, model in models.items(): ...] *)
Fixpoint select_best (names : list ModelName) (best : Best) : Exc Best :=
  match names with
  | [] => ok best
  | name :: rest =>
      let? scored := fit_and_score name in
      let '(model, mae) := scored in
      if improves mae (best_score best)
      then select_best rest {| best_model := Some model;
                               best_score := Some mae;
                               best_model_name := Some name |}
      else select_best rest best
  end.

End Selection.

(** The body of [train_demand_model] below the [try:]; the new registry
    and files are returned with the result. *)
Definition train_body (self : DemandForecaster) (product_id : Z)
  : Exc (Dict * DemandForecaster) :=
  let? sales_data := get_sales_data (Some product_id) 365 in
  if (len sales_data <? 30)%Z
  then ok (error_dict "Insufficient historical data", self)
  else
    let? features_df := training_table lib product_id sales_data in
    if (len features_df <? 20)%Z
    then ok (error_dict "Insufficient clean data after feature extraction", self)
    else
      let '(train, test) := train_test_split features_df in
      let X_train := map fst train in
      let y_train := map snd train in
      let X_test := map fst test in
      let y_test := map snd test in
      let? scaler := scaler_fit lib X_train in
      let? X_train_scaled := mapM (transform scaler) X_train in
      let? X_test_scaled := mapM (transform scaler) X_test in
      let? best := select_best X_train X_train_scaled y_train
                               X_test X_test_scaled y_test
                               candidates initial_best in
      match best_model best, best_score best, best_model_name best with
      | Some model, Some score, Some name =>
          let files1 :=
            <[model_filename product_id := ModelArtifact model]> (files self) in
          let files2 :=
            <[scaler_filename product_id := ScalerArtifact scaler]> files1 in
          ok ([("success", VBool true);
               ("model_type", VStr (model_name_str name));
               ("mae", VFloat score);
               ("training_samples", VInt (len X_train));
               ("test_samples", VInt (len X_test))],
              {| models := <[product_id := model]> (models self);
                 scalers := <[product_id := scaler]> (scalers self);
                 files := files2 |})
      | _, _, _ => raise "no candidate model"
      end.

Definition train_demand_model (self : DemandForecaster) (product_id : Z)
  : Dict * DemandForecaster :=
  match train_body self product_id with
  | inl msg => (error_dict msg, self)
  | inr r => r
  end.

(** *** predict_demand *)

(** [np.std]: the population standard deviation. *)
Definition np_std (l : list Q) : Q :=
  let m := mean l in
  np_sqrt lib (mean (map (fun x => (x - m) * (x - m)) l)).

Definition set_if (c : bool) (k : string) (v : Value) (d : Dict) : Dict :=
  if c then PyDict.set d k v else d.

(** The calendar entries of [feature_row]. *)
Definition calendar_features (product_id : Z) (date : Timestamp) : Dict :=
  let dow := Calendar.dayofweek date in
  let month := Calendar.month date in
  [("product_id", VInt product_id);
   ("sale_date", VInt date);
   ("day_of_week", VInt dow);
   ("month", VInt month);
   ("quarter", VInt (Calendar.quarter date));
   ("is_weekend", VInt (if ((dow =? 5) || (dow =? 6))%Z then 1 else 0));
   ("sin_month", VFloat (sin_2pi lib (inject_Z month / 12)));
   ("cos_month", VFloat (cos_2pi lib (inject_Z month / 12)));
   ("sin_day", VFloat (sin_2pi lib (inject_Z dow / 7)));
   ("cos_day", VFloat (cos_2pi lib (inject_Z dow / 7)))].

(** The lag entries, set only when enough quantities are there. *)
Definition add_lag_features (recent_quantities : list Q) (feature_row : Dict) : Dict :=
  let n := len recent_quantities in
  let r := set_if (1 <=? n)%Z "sales_lag_1" (VFloat (from_end 1 recent_quantities)) feature_row in
  let r := set_if (7 <=? n)%Z "sales_lag_7" (VFloat (from_end 7 recent_quantities)) r in
  let r := set_if (14 <=? n)%Z "sales_lag_14" (VFloat (from_end 14 recent_quantities)) r in
  set_if (30 <=? n)%Z "sales_lag_30" (VFloat (from_end 30 recent_quantities)) r.

Definition add_rolling (window : nat) (mean_key std_key : string)
    (recent_quantities : list Q) (feature_row : Dict) : Dict :=
  if (Z.of_nat window <=? len recent_quantities)%Z
  then
    let w := tail window recent_quantities in
    PyDict.set (PyDict.set feature_row mean_key (VFloat (mean w)))
               std_key (VFloat (np_std w))
  else feature_row.

Definition add_rolling_statistics (recent_quantities : list Q) (feature_row : Dict) : Dict :=
  let r := add_rolling 7 "sales_mean_7" "sales_std_7" recent_quantities feature_row in
  let r := add_rolling 14 "sales_mean_14" "sales_std_14" recent_quantities r in
  add_rolling 30 "sales_mean_30" "sales_std_30" recent_quantities r.

Definition lag_keys : list string :=
  ["sales_lag_1"; "sales_lag_7"; "sales_lag_14"; "sales_lag_30";
   "sales_mean_7"; "sales_std_7"; "sales_mean_14"; "sales_std_14";
   "sales_mean_30"; "sales_std_30"].

(** [for key in [...]: if key not in feature_row: feature_row[key] = 0] *)
Definition fill_missing (feature_row : Dict) : Dict :=
  foldl (fun r key => if PyDict.mem key r then r else PyDict.set r key (VInt 0))
        feature_row lag_keys.

(** [recent_sales['quantity'].tail(30).values] *)
Definition recent_quantities_of (recent_sales : list SalesRow) : list Q :=
  tail 30 (map (fun r => inject_Z (sr_quantity r)) recent_sales).

(** The dictionary [feature_row] of one horizon day, once it is full. *)
Definition feature_row (product_id : Z) (recent_quantities : list Q)
    (date : Timestamp) : Dict :=
  fill_missing
    (add_rolling_statistics recent_quantities
       (add_lag_features recent_quantities
          (calendar_features product_id date))).

(** [[feature_row[col] for col in feature_columns]] *)
Definition feature_vector (feature_row : Dict) : Exc (list Q) :=
  mapM (fun kv => to_float (snd kv))
       (filter (fun kv => fst kv ≠ "sale_date" ∧ fst kv ≠ "product_id") feature_row).

(** Scale, predict and clamp: the second half of the loop body, for the
    feature row built from the given quantities. *)
Definition predict_day (self : DemandForecaster) (product_id : Z)
    (recent_quantities : list Q) (date : Timestamp) : Exc Q :=
  let? X := feature_vector (feature_row product_id recent_quantities date) in
  let? model :=
    match models self !! product_id with
    | Some m => ok m
    | None => raise "KeyError"
    end in
  let? X :=
    if has_coef_ model
    then match scalers self !! product_id with
         | Some sc => transform sc X
         | None => raise "KeyError"
         end
    else ok X in
  let? pred := predict model X in
  ok (py_max 0 pred).

Definition prediction_entry (date : Timestamp) (pred : Q) : Dict :=
  [("date", VStr (Calendar.strftime date));
   ("predicted_demand", VFloat (py_round pred 2))].

(** [for date in future_dates: ...]; [recent_sales] is read in every
    iteration and [predictions] grows by one entry. *)
Fixpoint forecast_loop (self : DemandForecaster) (product_id : Z)
    (recent_sales : list SalesRow) (future_dates : list Timestamp)
    (predictions : list Dict) : Exc (list Dict) :=
  match future_dates with
  | [] => ok predictions
  | date :: rest =>
      let recent_quantities := recent_quantities_of recent_sales in
      let? pred := predict_day self product_id recent_quantities date in
      forecast_loop self product_id recent_sales rest
                    (predictions ++ [prediction_entry date pred])
  end.

(** [pd.date_range(start, periods=periods, freq='D')] *)
Definition date_range (start : Timestamp) (periods : Z) : Exc (list Timestamp) :=
  if (periods <? 0)%Z
  then raise "Number of periods must be non-negative"
  else ok (map (fun i => (start + Calendar.timedelta i)%Z) (seqZ 0 periods)).

Definition max_sale_date (r0 : SalesRow) (rows : list SalesRow) : Timestamp :=
  foldl (fun m r => Z.max m (sr_sale_date r)) (sr_sale_date r0) rows.

(** [predict_demand] from [recent_sales = ...] on, with the model loaded. *)
Definition forecast (self : DemandForecaster) (product_id : Z) (days_ahead : Z)
  : Exc Dict :=
  let? recent_sales := get_sales_data (Some product_id) 90 in
  match recent_sales with
  | [] => ok (error_dict "No recent sales data available")
  | r0 :: rows =>
      let last_date := max_sale_date r0 rows in
      let? future_dates :=
        date_range (last_date + Calendar.timedelta 1)%Z days_ahead in
      let? predictions :=
        forecast_loop self product_id recent_sales future_dates [] in
      let? demands :=
        mapM (fun p => let? v := getitem p "predicted_demand" in to_float v)
             predictions in
      let total_predicted := Qsum demands in
      let? average := true_div total_predicted (inject_Z days_ahead) in
      ok [("success", VBool true);
          ("product_id", VInt product_id);
          ("predictions", VList predictions);
          ("total_predicted_demand", VFloat (py_round total_predicted 2));
          ("average_daily_demand", VFloat (py_round average 2))]
  end.

(** [joblib.load] of the model and scaler files into the registries; the
    first assignment stays when the second load raises. *)
Definition load_artifacts (self : DemandForecaster) (product_id : Z)
  : Exc unit * DemandForecaster :=
  match files self !! model_filename product_id with
  | Some (ModelArtifact m) =>
      let self1 := {| models := <[product_id := m]> (models self);
                      scalers := scalers self;
                      files := files self |} in
      match files self !! scaler_filename product_id with
      | Some (ScalerArtifact sc) =>
          (ok tt, {| models := models self1;
                     scalers := <[product_id := sc]> (scalers self1);
                     files := files self1 |})
      | Some (ModelArtifact _) => (raise "not a scaler", self1)
      | None => (raise "No such file or directory", self1)
      end
  | Some (ScalerArtifact _) => (raise "not a model", self)
  | None => (raise "No such file or directory", self)
  end.

Definition predict_demand (self : DemandForecaster) (product_id : Z)
    (days_ahead : Z) : Dict * DemandForecaster :=
  match models self !! product_id with
  | Some _ => (catch_error (forecast self product_id days_ahead), self)
  | None =>
      match files self !! model_filename product_id with
      | None =>
          let '(train_result, self1) := train_demand_model self product_id in
          if is_error train_result
          then (train_result, self1)
          else (catch_error (forecast self1 product_id days_ahead), self1)
      | Some _ =>
          match load_artifacts self product_id with
          | (inl msg, self1) => (error_dict msg, self1)
          | (inr _, self1) =>
              (catch_error (forecast self1 product_id days_ahead), self1)
          end
      end
  end.

End WithWorld.
End Forecaster.

(** ** PriceOptimizer *)

Module PriceOptimizer.
Section WithWorld.

Context (lib : Library) (db : Session).
Context (now : Timestamp).

Import Num.
Local Open Scope Q_scope.

Definition _interpret_elasticity (elasticity : Q) : string :=
  if Qltb 0 elasticity
  then "Unusual: Positive elasticity (demand increases with price)"
  else if Qltb (- (1 # 2)) elasticity
  then "Inelastic: Demand is relatively insensitive to price changes"
  else if Qltb (- 1) elasticity
  then "Moderately elastic: Demand responds to price changes"
  else "Highly elastic: Demand is very sensitive to price changes".

Definition elasticity_body (product_id : Z) : Exc Dict :=
  let? df := select_price_history db product_id
               (now - Calendar.timedelta 180)%Z in
  if (len df <? 10)%Z
  then ok (error_dict "Insufficient price variation data")
  else
    let? price_demand := price_buckets lib df in
    if (len price_demand <? 3)%Z
    then ok (error_dict "Insufficient price points for elasticity calculation")
    else
      let log_price := map (fun b => np_log lib (fst b)) price_demand in
      let log_quantity := map (fun b => np_log lib (snd b + 1)) price_demand in
      let? elasticity := fit_slope lib log_price log_quantity in
      ok [("success", VBool true);
          ("price_elasticity", VFloat (py_round elasticity 3));
          ("interpretation", VStr (_interpret_elasticity elasticity));
          ("data_points", VInt (len price_demand))].

Definition get_price_elasticity (product_id : Z) : Dict :=
  catch_error (elasticity_body product_id).

(** [np.linspace(start, stop, num)] for [num >= 2] *)
Definition linspace (start stop : Q) (num : nat) : list Q :=
  let step := (stop - start) / inject_Z (Z.of_nat num - 1) in
  map (fun i => start + inject_Z i * step) (seqZ 0 (Z.of_nat num)).

(** [np.argmax]: the first index of the largest entry. *)
Fixpoint argmax_from (l : list Q) (i best_i : nat) (best : Q) : nat :=
  match l with
  | [] => best_i
  | x :: l' =>
      if Qltb best x
      then argmax_from l' (S i) i x
      else argmax_from l' (S i) best_i best
  end.

Definition argmax (l : list Q) : nat :=
  match l with
  | [] => 0%nat
  | x :: l' => argmax_from l' 1 0 x
  end.

(** [a or b] on an optional number: [b] when [a] is [None] or zero. *)
Definition or_else (a : option Q) (b : Q) : Q :=
  match a with
  | Some x => if Qeq_bool x 0 then b else x
  | None => b
  end.

(** The nested [profit_function]. *)
Definition profit_function (cost base_demand current_price elasticity price : Q) : Q :=
  if Qle_bool price cost
  then 0
  else
    let quantity := base_demand * float_pow lib (price / current_price) elasticity in
    (price - cost) * quantity.

(** [profit_function] called on a Python float rather than on a numpy
    one: the division by a zero [current_price] raises. *)
Definition profit_function_float (cost base_demand current_price elasticity price : Q)
  : Exc Q :=
  if Qle_bool price cost
  then ok 0
  else
    let? _ := true_div price current_price in
    ok (profit_function cost base_demand current_price elasticity price).

Definition _generate_price_recommendation (current optimal target elasticity : Q)
  : string :=
  if Qltb (Qabs (optimal - current) / current) (5 # 100)
  then "Current price is near optimal. Consider minor adjustments based on market conditions."
  else if Qltb current optimal
  then
    let increase_pct := (optimal - current) / current * 100 in
    "Consider increasing price by " ++ format_1f lib increase_pct ++ "% to $"
      ++ format_2f lib optimal ++ " for maximum profit."
  else
    let decrease_pct := (current - optimal) / current * 100 in
    "Consider decreasing price by " ++ format_1f lib decrease_pct ++ "% to $"
      ++ format_2f lib optimal ++ " to increase volume and profit.".

(** The scan of [optimize_price]: the candidate prices and the one of
    largest profit, before any rounding. *)
Definition price_range (cost current_price : Q) : list Q :=
  linspace (cost * (11 # 10)) (current_price * 2) 100.

Definition scan_optimal_price (cost base_demand current_price elasticity : Q) : Q :=
  let range := price_range cost current_price in
  let profits := map (profit_function cost base_demand current_price elasticity) range in
  nth (argmax profits) range 0.

Definition float_of_option (x : option Q) : Exc Q :=
  match x with
  | Some q => ok q
  | None => raise "float() argument must be a string or a real number, not 'NoneType'"
  end.

Definition optimize_body (product_id : Z) (current_cost target_margin : Q) : Exc Dict :=
  let? product := select_product db product_id in
  match product with
  | None => ok (error_dict "Product not found")
  | Some product =>
      let? current_price := float_of_option (p_price product) in
      let cost := or_else (p_cost product) current_cost in
      let elasticity_result := get_price_elasticity product_id in
      let? elasticity :=
        if is_error elasticity_result
        then ok (- 1)
        else let? v := getitem elasticity_result "price_elasticity" in to_float v in
      let? avg_sales := select_avg_daily_sales db product_id None
                          (now - Calendar.timedelta 30)%Z in
      let base_demand := or_else avg_sales 1 in
      let profit := profit_function cost base_demand current_price elasticity in
      let range := price_range cost current_price in
      let profits := map profit range in
      let optimal_idx := argmax profits in
      let optimal_price := nth optimal_idx range 0 in
      let max_profit := nth optimal_idx profits 0 in
      let optimal_margin := (optimal_price - cost) / optimal_price in
      let? current_profit :=
        profit_function_float cost base_demand current_price elasticity
                              current_price in
      let profit_improvement :=
        if Qltb 0 current_profit
        then (max_profit - current_profit) / current_profit * 100
        else 0 in
      let? target_price := true_div cost (1 - target_margin) in
      let? target_profit :=
        profit_function_float cost base_demand current_price elasticity
                              target_price in
      let? current_margin := true_div (current_price - cost) current_price in
      ok [("success", VBool true);
          ("current_price", VFloat (py_round current_price 2));
          ("optimal_price", VFloat (py_round optimal_price 2));
          ("target_margin_price", VFloat (py_round target_price 2));
          ("current_margin", VFloat (py_round current_margin 3));
          ("optimal_margin", VFloat (py_round optimal_margin 3));
          ("profit_improvement_percent", VFloat (py_round profit_improvement 1));
          ("price_elasticity", VFloat (py_round elasticity 3));
          ("recommendation",
           VStr (_generate_price_recommendation current_price optimal_price
                   target_price elasticity))]
  end.

Definition optimize_price (product_id : Z) (current_cost target_margin : Q) : Dict :=
  catch_error (optimize_body product_id current_cost target_margin).

End WithWorld.
End PriceOptimizer.

(** ** AutoReorderSystem *)

Module AutoReorder.
Section WithWorld.

Context (lib : Library) (db : Session).
Context (now : Timestamp).

Import Num.
Local Open Scope Q_scope.

(** [Series.std()] of pandas: the sample standard deviation. *)
Definition pd_std (l : list Q) : Q :=
  let m := mean l in
  np_sqrt lib (Qsum (map (fun x => (x - m) * (x - m)) l) / inject_Z (len l - 1)).

Definition lead_time_days : Q := 7.
Definition ordering_cost : Q := 50.

Definition recommendation_text (reorder_point order_quantity : Q) : string :=
  "Reorder when stock reaches " ++ str_float lib (py_round reorder_point 0)
    ++ " units. Order " ++ str_float lib (py_round order_quantity 0)
    ++ " units each time.".

Definition simple_body (product_id location_id : Z) : Exc Dict :=
  let? avg_sales := select_avg_daily_sales db product_id (Some location_id)
                      (now - Calendar.timedelta 30)%Z in
  let daily_demand := PriceOptimizer.or_else avg_sales (1 # 10) in
  let reorder_point := daily_demand * 14 * (3 # 2) in
  let order_quantity := daily_demand * 30 in
  ok [("success", VBool true);
      ("product_id", VInt product_id);
      ("location_id", VInt location_id);
      ("reorder_point", VFloat (py_round reorder_point 0));
      ("economic_order_quantity", VFloat (py_round order_quantity 0));
      ("average_daily_demand", VFloat (py_round daily_demand 2));
      ("method", VStr "simple");
      ("recommendation", VStr (recommendation_text reorder_point order_quantity))].

Definition _simple_reorder_calculation (product_id location_id : Z) : Dict :=
  catch_error (simple_body product_id location_id).

(** The safety stock formula. *)
Definition safety_stock_of (service_level demand_std : Q) : Q :=
  let z_score := norm_ppf lib service_level in
  z_score * demand_std * np_sqrt lib lead_time_days.

(** [calculate_reorder_point] once the forecast is there. *)
Definition statistical_body (demand_forecast : Dict) (product_id location_id : Z)
    (service_level : Q) : Exc Dict :=
  let? v := getitem demand_forecast "average_daily_demand" in
  let? avg_daily_demand := to_float v in
  let? daily_sales := select_daily_sales db product_id location_id
                        (now - Calendar.timedelta 90)%Z in
  let demand_std :=
    if (len daily_sales <? 10)%Z
    then avg_daily_demand * (3 # 10)
    else pd_std (map snd daily_sales) in
  let safety_stock := safety_stock_of service_level demand_std in
  let lead_time_demand := avg_daily_demand * lead_time_days in
  let reorder_point := lead_time_demand + safety_stock in
  let? product := select_product db product_id in
  let eoq :=
    match product with
    | Some p =>
        match p_cost p with
        | Some cost =>
            if Qeq_bool cost 0
            then avg_daily_demand * 30
            else
              let annual_demand := avg_daily_demand * 365 in
              let holding_cost_per_unit := cost * (20 # 100) in
              np_sqrt lib ((2 * annual_demand * ordering_cost) / holding_cost_per_unit)
        | None => avg_daily_demand * 30
        end
    | None => avg_daily_demand * 30
    end in
  ok [("success", VBool true);
      ("product_id", VInt product_id);
      ("location_id", VInt location_id);
      ("reorder_point", VFloat (py_round reorder_point 0));
      ("safety_stock", VFloat (py_round safety_stock 0));
      ("economic_order_quantity", VFloat (py_round eoq 0));
      ("lead_time_demand", VFloat (py_round lead_time_demand 1));
      ("average_daily_demand", VFloat (py_round avg_daily_demand 2));
      ("service_level", VFloat service_level);
      ("recommendation", VStr (recommendation_text reorder_point eoq))].

(** The forecaster owned by the system is the only state. *)
Definition calculate_reorder_point (demand_forecaster : DemandForecaster)
    (product_id location_id : Z) (service_level : Q)
  : Dict * DemandForecaster :=
  let '(demand_forecast, fc) :=
    Forecaster.predict_demand lib db now demand_forecaster product_id 30 in
  if is_error demand_forecast
  then (_simple_reorder_calculation product_id location_id, fc)
  else (catch_error (statistical_body demand_forecast product_id location_id
                       service_level), fc).

Definition _calculate_priority (current_stock reorder_level : Z) : Z :=
  if (current_stock <=? 0)%Z then 100%Z
  else if Qle_bool (inject_Z current_stock) (inject_Z reorder_level * (1 # 2)) then 80%Z
  else if Qle_bool (inject_Z current_stock) (inject_Z reorder_level * (3 # 4)) then 60%Z
  else 40%Z.

(** [x["priority"]] of a suggestion *)
Definition priority_key (x : Dict) : Z :=
  match PyDict.get x "priority" with
  | Some (VInt z) => z
  | _ => 0%Z
  end.

(** [list.sort(key=..., reverse=True)]: descending and stable. *)
Fixpoint insert_desc (x : Dict) (l : list Dict) : list Dict :=
  match l with
  | [] => [x]
  | y :: l' =>
      if (priority_key y <=? priority_key x)%Z
      then x :: y :: l'
      else y :: insert_desc x l'
  end.

Definition sort_by_priority (l : list Dict) : list Dict :=
  foldr insert_desc [] l.

Definition default_service_level : Q := 95 # 100.

(** The dictionary appended for one low-stock row. *)
Definition suggestion_of (product : LowStockRow) (reorder_calc : Dict) : Exc Dict :=
  let? reorder_point := getitem reorder_calc "reorder_point" in
  let? order_quantity := getitem reorder_calc "economic_order_quantity" in
  let priority := _calculate_priority (ls_stock_quantity product)
                                      (ls_reorder_level product) in
  let? recommendation := getitem reorder_calc "recommendation" in
  ok [("product_id", VInt (ls_product_id product));
      ("product_name", VStr (ls_name product));
      ("location_id", VInt (ls_location_id product));
      ("current_stock", VInt (ls_stock_quantity product));
      ("reorder_level", VInt (ls_reorder_level product));
      ("suggested_reorder_point", reorder_point);
      ("suggested_order_quantity", order_quantity);
      ("current_reorder_quantity", VInt (ls_reorder_quantity product));
      ("priority", VInt priority);
      ("recommendation", recommendation)].

(** [for product in low_stock_products: ...] *)
Fixpoint suggestion_loop (low_stock_products : list LowStockRow)
    (fc : DemandForecaster) (suggestions : list Dict)
  : Exc (list Dict) * DemandForecaster :=
  match low_stock_products with
  | [] => (ok suggestions, fc)
  | product :: rest =>
      let '(reorder_calc, fc1) :=
        calculate_reorder_point fc (ls_product_id product)
                                (ls_location_id product) default_service_level in
      if is_error reorder_calc
      then suggestion_loop rest fc1 suggestions
      else
        match suggestion_of product reorder_calc with
        | inl msg => (raise msg, fc1)
        | inr suggestion => suggestion_loop rest fc1 (suggestions ++ [suggestion])
        end
  end.

Definition generate_reorder_suggestions (demand_forecaster : DemandForecaster)
    (location_id : option Z) : list Dict * DemandForecaster :=
  match select_low_stock db (Forecaster.truthy_id location_id) with
  | inl _ => ([], demand_forecaster)
  | inr low_stock_products =>
      match suggestion_loop low_stock_products demand_forecaster [] with
      | (inl _, fc) => ([], fc)
      | (inr suggestions, fc) => (sort_by_priority suggestions, fc)
      end
  end.

End WithWorld.
End AutoReorder.

(** ** A small concrete world

    Rational stand-ins for the numeric library and a four-product store,
    used to run the engine on concrete inputs. *)

Module Example.

Import Num.
Local Open Scope Q_scope.

(** Square root to six decimals, by the integer square root. *)
Definition sqrt6 (x : Q) : Q :=
  inject_Z (Z.sqrt (Qfloor (x * 1000000000000))) / 1000000.

(** Bhaskara's rational sine on a half turn, extended to the full turn. *)
Definition half_turn (x : Q) : Q :=
  16 * x * (1 - x) / (5 - 4 * x * (1 - x)).

Definition sine_turns (x : Q) : Q :=
  let f := x - inject_Z (Qfloor x) in
  if Qle_bool f (1 # 2) then half_turn (2 * f) else - half_turn (2 * f - 1).

Definition cosine_turns (x : Q) : Q := sine_turns (x + (1 # 4)).

(** The first term of the series of the logarithm in [(x-1)/(x+1)]. *)
Definition log1 (x : Q) : Q := 2 * (x - 1) / (x + 1).

(** Powers with the exponent truncated to an integer; exact at the
    default elasticity [-1]. *)
Definition pow_int (x y : Q) : Q := Qpower x (Qfloor y).

(** The chord of the normal quantile through its values at 0.05, 0.5
    and 0.95. *)
Definition ppf3 (p : Q) : Q := (32898 # 9000) * (p - (1 # 2)).

(** Ordinary least squares on one feature. *)
Definition ols_slope (x y : list Q) : Exc Q :=
  let mx := mean x in
  let my := mean y in
  let sxx := Qsum (map (fun a => (a - mx) * (a - mx)) x) in
  let sxy := Qsum (zip_with (fun a b => (a - mx) * (b - my)) x y) in
  ok (if Qeq_bool sxx 0 then 0 else sxy / sxx).

(** Estimators that ignore the features: the forest predicts the mean of
    the training targets, boosting the first target and the linear model
    the last one. *)
Definition constant_model (coef : bool) (c : Q) : Model :=
  {| has_coef_ := coef; predict := fun _ => ok c |}.

Definition fit_constant (name : ModelName) (X : list (list Q)) (y : list Q)
  : Exc Model :=
  match name with
  | random_forest => ok (constant_model false (mean y))
  | gradient_boosting => ok (constant_model false (nth 0 y 0))
  | linear_regression => ok (constant_model true (List.last y 0))
  end.

Definition identity_scaler : Scaler := {| transform := fun X => ok X |}.

(** Fixed-point printing with [n] decimals. *)
Definition pad_left (width : nat) (digits : string) : string :=
  String.concat "" (replicate (width - String.length digits) "0") ++ digits.

Definition format_fixed (n : nat) (x : Q) : string :=
  let s := (10 ^ Z.of_nat n)%Z in
  let r := round_half_even (x * inject_Z s) in
  (if (r <? 0)%Z then "-" else "")
    ++ pretty (Z.abs r / s)%Z ++ "." ++ pad_left n (pretty (Z.abs r mod s)%Z).

Definition lib : Library :=
  {| np_sqrt := sqrt6;
     sin_2pi := sine_turns;
     cos_2pi := cosine_turns;
     np_log := log1;
     float_pow := pow_int;
     norm_ppf := ppf3;
     training_table := fun _ rows =>
       ok (map (fun r => ([sr_price r], inject_Z (sr_quantity r))) rows);
     scaler_fit := fun _ => ok identity_scaler;
     model_fit := fit_constant;
     price_buckets := fun rows =>
       ok (map (fun r => (pr_price r, inject_Z (pr_quantity r))) rows);
     fit_slope := ols_slope;
     str_float := format_fixed 1;
     format_1f := format_fixed 1;
     format_2f := format_fixed 2 |}.

(** 2024-03-01 00:00 *)
Definition now : Timestamp := 1709251200%Z.

Definition sale (product_id days_ago quantity : Z) (price : Q) : SalesRow :=
  {| sr_product_id := product_id;
     sr_sale_date := (now - Calendar.timedelta days_ago + 43200)%Z;
     sr_quantity := quantity;
     sr_price := price;
     sr_product_name := "item";
     sr_category_id := 1;
     sr_location_id := 1 |}.

(** Product 1 sold 10 units a day at 50 for the last 45 days; product 2
    was sold three times; products 3 and 4 never; product 5 sold between
    8 and 12 units a day for the last 45 days. *)
Definition sales_table : list SalesRow :=
  map (fun d => sale 1 (46 - d) 10 50) (seqZ 1 45)
  ++ [sale 2 20 4 8; sale 2 10 2 8; sale 2 5 9 8]
  ++ map (fun d => sale 5 (46 - d) (8 + d mod 5) 25) (seqZ 1 45).

Definition products_table (product_id : Z) : option ProductRow :=
  if (product_id =? 1)%Z
  then Some {| p_price := Some 50; p_cost := Some 30; p_name := "router" |}
  else if (product_id =? 2)%Z
  then Some {| p_price := Some 8; p_cost := None; p_name := "cable" |}
  else if (product_id =? 3)%Z
  then Some {| p_price := Some (1 # 100); p_cost := Some (4 # 100); p_name := "resistor" |}
  else if (product_id =? 4)%Z
  then Some {| p_price := Some 20; p_cost := Some 12; p_name := "adapter" |}
  else if (product_id =? 5)%Z
  then Some {| p_price := Some 25; p_cost := Some 15; p_name := "switch" |}
  else None.

Definition in_window (product_id : option Z) (location_id : option Z)
    (start : Timestamp) (r : SalesRow) : bool :=
  match product_id with Some p => (sr_product_id r =? p)%Z | None => true end
  && match location_id with Some l => (sr_location_id r =? l)%Z | None => true end
  && (start <=? sr_sale_date r)%Z.

(** [GROUP BY DATE(s.sale_date)] with [SUM(si.quantity)] *)
Fixpoint add_to_day (day : Z) (q : Q) (acc : list (Z * Q)) : list (Z * Q) :=
  match acc with
  | [] => [(day, q)]
  | (d, t) :: acc' =>
      if (d =? day)%Z then (d, t + q) :: acc' else (d, t) :: add_to_day day q acc'
  end.

Definition daily_totals (rows : list SalesRow) : list (Z * Q) :=
  foldl (fun acc r => add_to_day (Calendar.day_number (sr_sale_date r))
                                 (inject_Z (sr_quantity r)) acc) [] rows.

(** [AVG(daily_quantity)]: NULL on no rows. *)
Definition average (totals : list (Z * Q)) : option Q :=
  match totals with
  | [] => None
  | _ => Some (Qred (mean (map snd totals)))
  end.

Definition low_stock_table : list LowStockRow :=
  [ {| ls_product_id := 4; ls_location_id := 1; ls_stock_quantity := 0;
       ls_name := "adapter"; ls_reorder_level := 10; ls_reorder_quantity := 50 |};
    {| ls_product_id := 2; ls_location_id := 1; ls_stock_quantity := 6;
       ls_name := "cable"; ls_reorder_level := 10; ls_reorder_quantity := 50 |};
    {| ls_product_id := 1; ls_location_id := 1; ls_stock_quantity := 4;
       ls_name := "router"; ls_reorder_level := 10; ls_reorder_quantity := 50 |};
    {| ls_product_id := 5; ls_location_id := 1; ls_stock_quantity := 9;
       ls_name := "switch"; ls_reorder_level := 10; ls_reorder_quantity := 50 |} ].

(** Every statement about the sales of product 4 raises. *)
Definition guarded {A} (product_id : option Z) (rows : A) : Exc A :=
  match product_id with
  | Some 4%Z => raise "could not convert string to float"
  | _ => ok rows
  end.

Definition db : Session :=
  {| select_sales := fun product_id start =>
       guarded product_id (List.filter (in_window product_id None start)
                                  sales_table);
     select_price_history := fun product_id start =>
       guarded (Some product_id)
         (map (fun r => {| pr_price := sr_price r; pr_quantity := sr_quantity r;
                           pr_sale_date := sr_sale_date r |})
              (List.filter (in_window (Some product_id) None start)
                      sales_table));
     select_product := fun product_id => ok (products_table product_id);
     select_avg_daily_sales := fun product_id location_id start =>
       guarded (Some product_id)
         (average (daily_totals
            (List.filter (in_window (Some product_id) location_id start)
                    sales_table)));
     select_daily_sales := fun product_id location_id start =>
       guarded (Some product_id)
         (daily_totals
            (List.filter (in_window (Some product_id) (Some location_id) start)
                    sales_table));
     select_low_stock := fun location_id =>
       ok (List.filter (fun r => match location_id with
                                 | Some l => (ls_location_id r =? l)%Z
                                 | None => true
                                 end) low_stock_table) |}.

(** A fresh forecaster and an empty [models/] directory. *)
Definition fresh : DemandForecaster :=
  {| models := ∅; scalers := ∅; files := ∅ |}.

(** A model that answers its ninth feature plus one; in a full feature
    row the ninth entry is [sales_lag_1]. *)
Definition lag_model : Model :=
  {| has_coef_ := false; predict := fun X => ok (nth 8 X 0 + 1) |}.

Definition with_lag_model : DemandForecaster :=
  {| models := {[ 1%Z := lag_model ]}; scalers := ∅; files := ∅ |}.

End Example.

(** ** Notions of the specification *)

Module Specification.

Import Num.

(** The walk described in the specification: every clamped prediction is
    appended to the buffer, and the next day reads its lag and rolling
    features from the last 30 entries of the extended buffer. *)
Fixpoint forecast_loop_autoregressive (lib : Library) (self : DemandForecaster)
    (product_id : Z) (buffer : list Q) (future_dates : list Timestamp)
    (predictions : list Dict) : Exc (list Dict) :=
  match future_dates with
  | [] => ok predictions
  | date :: rest =>
      let? pred := Forecaster.predict_day lib self product_id (tail 30 buffer) date in
      forecast_loop_autoregressive lib self product_id (buffer ++ [pred]) rest
        (predictions ++ [Forecaster.prediction_entry date pred])
  end.

(** The autoregressive walk over the same history and the same dates as
    [Forecaster.forecast]. *)
Definition forecast_autoregressive (lib : Library) (db : Session) (now : Timestamp)
    (self : DemandForecaster) (product_id days_ahead : Z) : Exc (list Dict) :=
  let? recent_sales := Forecaster.get_sales_data db now (Some product_id) 90 in
  match recent_sales with
  | [] => raise "No recent sales data available"
  | r0 :: rows =>
      let last_date := Forecaster.max_sale_date r0 rows in
      let? future_dates :=
        Forecaster.date_range (last_date + Calendar.timedelta 1)%Z days_ahead in
      forecast_loop_autoregressive lib self product_id
        (map (fun r => inject_Z (sr_quantity r)) recent_sales) future_dates []
  end.



(** [d["predictions"][i]["predicted_demand"]] for every [i] *)
Definition predicted_values (predictions : list Dict) : list (option Value) :=
  map (fun p => PyDict.get p "predicted_demand") predictions.

(** The reorder calculations of a batch, in scan order, each started from
    the forecaster the previous one left behind. *)
Fixpoint calculation_trace (lib : Library) (db : Session) (now : Timestamp)
    (rows : list LowStockRow) (fc : DemandForecaster)
  : list (LowStockRow * Dict) :=
  match rows with
  | [] => []
  | product :: rest =>
      let '(reorder_calc, fc1) :=
        AutoReorder.calculate_reorder_point lib db now fc (ls_product_id product)
          (ls_location_id product) AutoReorder.default_service_level in
      (product, reorder_calc) :: calculation_trace lib db now rest fc1
  end.

(** The pairs of a batch whose calculation did not end in an error. *)
Definition succeeded (trace : list (LowStockRow * Dict)) : list (LowStockRow * Dict) :=
  List.filter (fun pc => negb (is_error (snd pc))) trace.

(** The pairs of a batch whose calculation ended in an error. *)
Definition failed (trace : list (LowStockRow * Dict)) : list (LowStockRow * Dict) :=
  List.filter (fun pc => is_error (snd pc)) trace.

(** A dictionary of the output speaks of a product/location pair. *)
Definition mentions (product : LowStockRow) (entry : Dict) : Prop :=
  PyDict.get entry "product_id" = Some (VInt (ls_product_id product))
  /\ PyDict.get entry "location_id" = Some (VInt (ls_location_id product)).

End Specification.

(** The example store with another low-stock scan: the cable is out of
    stock, and every calculation succeeds. *)
Module ExampleStock.

Definition low_stock_table : list LowStockRow :=
  [ {| ls_product_id := 1; ls_location_id := 1; ls_stock_quantity := 4;
       ls_name := "router"; ls_reorder_level := 10; ls_reorder_quantity := 50 |};
    {| ls_product_id := 2; ls_location_id := 1; ls_stock_quantity := 0;
       ls_name := "cable"; ls_reorder_level := 10; ls_reorder_quantity := 50 |};
    {| ls_product_id := 5; ls_location_id := 1; ls_stock_quantity := 9;
       ls_name := "switch"; ls_reorder_level := 10; ls_reorder_quantity := 50 |} ].

Definition db : Session :=
  {| select_sales := select_sales Example.db;
     select_price_history := select_price_history Example.db;
     select_product := select_product Example.db;
     select_avg_daily_sales := select_avg_daily_sales Example.db;
     select_daily_sales := select_daily_sales Example.db;
     select_low_stock := fun _ => ok low_stock_table |}.

End ExampleStock.

(** ** Callers in the API layer (enhanced_main.py) *)

Module Api.
Section WithWorld.

Context (lib : Library) (db : Session).
Context (now : Timestamp).

(** [DemandForecaster.__init__], as [create_ai_analytics] runs it for every
    request: empty registries over whatever is stored under [models/]. *)
Definition new_forecaster (fs : gmap string Artifact) : DemandForecaster :=
  {| models := ∅; scalers := ∅; files := fs |}.

(** The body of the endpoint [get_demand_forecast]; the files the request
    leaves behind are returned with the answer. *)
Definition get_demand_forecast (fs : gmap string Artifact) (product_id days_ahead : Z)
  : Dict * gmap string Artifact :=
  let '(result, forecaster) :=
    Forecaster.predict_demand lib db now (new_forecaster fs) product_id days_ahead in
  (result, files forecaster).

(** The loop of [train_all_models]: one forecaster trains every product in
    turn, and each result is appended with its product. *)
Fixpoint train_all_loop (product_ids : list Z) (forecaster : DemandForecaster)
    (results : list (Z * Dict)) : list (Z * Dict) * DemandForecaster :=
  match product_ids with
  | [] => (results, forecaster)
  | product_id :: rest =>
      let '(result, forecaster1) :=
        Forecaster.train_demand_model lib db now forecaster product_id in
      train_all_loop rest forecaster1 (results ++ [(product_id, result)])
  end.

(** The formatting loop of [send_low_stock_alert] over the suggestions. *)
Definition low_stock_item (suggestion : Dict) : Exc Dict :=
  let? product_name := getitem suggestion "product_name" in
  let? current_stock := getitem suggestion "current_stock" in
  let? reorder_level := getitem suggestion "reorder_level" in
  let? suggested_quantity := getitem suggestion "suggested_order_quantity" in
  ok [("product_name", product_name);
      ("current_stock", current_stock);
      ("reorder_level", reorder_level);
      ("suggested_quantity", suggested_quantity)].

Definition low_stock_items (suggestions : list Dict) : Exc (list Dict) :=
  mapM low_stock_item suggestions.

End WithWorld.
End Api.

(** ** Invariants of the forecaster state *)

Module Invariant.

(** Every stored model file holds a model and comes with a scaler file
    that holds a scaler. *)
Definition files_paired (fs : gmap string Artifact) : Prop :=
  forall product_id a,
    fs !! Forecaster.model_filename product_id = Some a ->
    (exists m, a = ModelArtifact m)
    /\ exists sc, fs !! Forecaster.scaler_filename product_id = Some (ScalerArtifact sc).

(** Every registered model has a registered scaler, and the files are
    paired. *)
Definition consistent (st : DemandForecaster) : Prop :=
  (forall product_id, is_Some (models st !! product_id) ->
                      is_Some (scalers st !! product_id))
  /\ files_paired (files st).

(** Two forecasters that hold the same model and scaler for a product. *)
Definition same_model (product_id : Z) (st1 st2 : DemandForecaster) : Prop :=
  models st1 !! product_id = models st2 !! product_id
  /\ scalers st1 !! product_id = scalers st2 !! product_id.

(** [x["current_stock"]] of a suggestion *)
Definition current_stock_of (x : Dict) : option Z :=
  match PyDict.get x "current_stock" with
  | Some (VInt z) => Some z
  | _ => None
  end.

End Invariant.

(** * Properties *)

(** ** Rounding *)

Section Rounding.

Import Num.
Local Open Scope Q_scope.

Lemma round_half_even_bounds (x : Q) :
  x - (1 # 2) <= inject_Z (round_half_even x)
  /\ inject_Z (round_half_even x) <= x + (1 # 2).
Proof.
  unfold round_half_even.
  pose proof (Qfloor_le x) as Hlo.
  pose proof (Qlt_floor x) as Hhi.
  rewrite inject_Z_plus in Hhi. change (inject_Z 1) with 1 in Hhi.
  destruct (Qcompare_spec (x - inject_Z (Qfloor x)) (1 # 2)) as [He | Hl | Hg].
  - destruct (Z.even (Qfloor x)); rewrite ?inject_Z_plus;
      change (inject_Z 1) with 1; split; lra.
  - split; lra.
  - rewrite inject_Z_plus. change (inject_Z 1) with 1. split; lra.
Qed.

Lemma round_half_even_mono (x y : Q) :
  x <= y -> (round_half_even x <= round_half_even y)%Z.
Proof.
  intros Hxy.
  pose proof (Qfloor_resp_le _ _ Hxy) as Hf.
  destruct (Z.eq_dec (Qfloor x) (Qfloor y)) as [Heq | Hne].
  - unfold round_half_even. rewrite <- Heq.
    destruct (Qcompare_spec (x - inject_Z (Qfloor x)) (1 # 2)),
             (Qcompare_spec (y - inject_Z (Qfloor x)) (1 # 2));
      destruct (Z.even (Qfloor x)); try lia; exfalso; lra.
  - assert (Hx : (round_half_even x <= Qfloor x + 1)%Z).
    { unfold round_half_even.
      destruct (Qcompare (x - inject_Z (Qfloor x)) (1 # 2));
        destruct (Z.even (Qfloor x)); lia. }
    assert (Hy : (Qfloor y <= round_half_even y)%Z).
    { unfold round_half_even.
      destruct (Qcompare (y - inject_Z (Qfloor y)) (1 # 2));
        destruct (Z.even (Qfloor y)); lia. }
    lia.
Qed.

Lemma scale_pos (n : nat) : 0 < inject_Z (10 ^ Z.of_nat n).
Proof.
  change 0 with (inject_Z 0). rewrite <- Zlt_Qlt.
  apply Z.pow_pos_nonneg; lia.
Qed.

Lemma py_round_mono (x y : Q) (n : nat) :
  x <= y -> py_round x n <= py_round y n.
Proof.
  intros Hxy. unfold py_round.
  pose proof (scale_pos n) as Hs.
  apply Qmult_le_compat_r.
  - rewrite <- Zle_Qle. apply round_half_even_mono.
    apply Qmult_le_compat_r; lra.
  - apply Qlt_le_weak, Qinv_lt_0_compat, Hs.
Qed.

Lemma py_round_nonneg (x : Q) (n : nat) : 0 <= x -> 0 <= py_round x n.
Proof.
  intros Hx. unfold py_round.
  pose proof (scale_pos n) as Hs.
  apply Qmult_le_0_compat.
  - change 0 with (inject_Z (round_half_even 0)). rewrite <- Zle_Qle.
    apply round_half_even_mono. apply Qmult_le_0_compat; lra.
  - apply Qlt_le_weak, Qinv_lt_0_compat, Hs.
Qed.

(** Rounding to [n] decimals loses at most half a unit of the last one. *)
Lemma py_round_above (x : Q) (n : nat) :
  x - (1 # 2) / inject_Z (10 ^ Z.of_nat n) <= py_round x n.
Proof.
  unfold py_round.
  pose proof (scale_pos n) as Hs.
  set (s := inject_Z (10 ^ Z.of_nat n)) in *.
  destruct (round_half_even_bounds (x * s)) as [Hlo _].
  apply Qle_shift_div_l; [exact Hs|].
  assert (E : (x - (1 # 2) / s) * s == x * s - (1 # 2)) by (field; lra).
  rewrite E. exact Hlo.
Qed.

Lemma Qltb_true (a b : Q) : Qltb a b = true <-> a < b.
Proof.
  unfold Qltb. rewrite negb_true_iff.
  destruct (Qle_bool b a) eqn:E.
  - apply Qle_bool_iff in E. split; [discriminate | intros; lra].
  - split; [intros _ | reflexivity].
    apply Qnot_le_lt. intros H. apply Qle_bool_iff in H. congruence.
Qed.

Lemma Qltb_false (a b : Q) : Qltb a b = false <-> b <= a.
Proof.
  unfold Qltb. rewrite negb_false_iff. apply Qle_bool_iff.
Qed.

Lemma py_max_nonneg (x : Q) : 0 <= py_max 0 x.
Proof.
  unfold py_max. destruct (Qltb 0 x) eqn:E; [|lra].
  apply Qltb_true in E. lra.
Qed.

End Rounding.

(** Inversion of a successful [let?]. *)
Ltac bind_ok H :=
  match type of H with
  | bind ?m _ = inr _ =>
      let E := fresh "E" in
      destruct m eqn:E; [discriminate H | cbn [bind] in H]
  end.

(** ** Training *)

Section Training.

Context (lib : Library) (db : Session) (now : Timestamp).


End Training.


(** ** Forecasting *)

Section Forecasting.

Context (lib : Library) (db : Session) (now : Timestamp).

Import Num.
Local Open Scope Q_scope.

Local Open Scope list_scope.

Abbreviation recent_quantities_of := Forecaster.recent_quantities_of.
Abbreviation predict_day := (Forecaster.predict_day lib).
Abbreviation prediction_entry := Forecaster.prediction_entry.

(** A horizon of zero days always ends in the division of the average. *)
Lemma forecast_zero_days (self : DemandForecaster) (product_id : Z) :
  is_error (catch_error (Forecaster.forecast lib db now self product_id 0)) = true.
Proof.
  unfold Forecaster.forecast.
  destruct (Forecaster.get_sales_data db now (Some product_id) 90) as [e | rows];
    [reflexivity|].
  destruct rows as [| r0 rows]; reflexivity.
Qed.

Lemma predict_demand_zero_days_is_error (self : DemandForecaster) (product_id : Z) :
  is_error (fst (Forecaster.predict_demand lib db now self product_id 0)) = true.
Proof.
  unfold Forecaster.predict_demand.
  destruct (models self !! product_id); [apply forecast_zero_days|].
  destruct (files self !! Forecaster.model_filename product_id).
  - destruct (Forecaster.load_artifacts self product_id) as [[e | u] self1];
      [reflexivity | apply forecast_zero_days].
  - destruct (Forecaster.train_demand_model lib db now self product_id)
      as [train_result self1].
    destruct (is_error train_result) eqn:E; [exact E | apply forecast_zero_days].
Qed.

(** The walk returns the accumulated entries followed by one entry per
    date, each computed from the observed quantities alone. *)
Lemma forecast_loop_entries (self : DemandForecaster) (product_id : Z)
    (recent_sales : list SalesRow) (dates : list Timestamp) :
  forall (acc preds : list Dict),
    Forecaster.forecast_loop lib self product_id recent_sales dates acc = ok preds ->
    exists entries,
      preds = acc ++ entries
      /\ Forall2 (fun date p =>
                    exists pred,
                      predict_day self product_id
                        (recent_quantities_of recent_sales) date = ok pred
                      /\ p = prediction_entry date pred)
                 dates entries.
Proof.
  induction dates as [| date rest IH]; intros acc preds H; cbn in H.
  - exists []. injection H as <-. rewrite app_nil_r. split; constructor.
  - unfold ok in *. bind_ok H.
    destruct (IH _ _ H) as (entries & -> & Hall).
    exists (prediction_entry date q :: entries). split.
    + now rewrite <- app_assoc.
    + constructor; [|exact Hall]. now exists q.
Qed.

Lemma predict_day_nonneg (self : DemandForecaster) (product_id : Z)
    (quantities : list Q) (date : Timestamp) (pred : Q) :
  predict_day self product_id quantities date = ok pred -> 0 <= pred.
Proof.
  unfold Forecaster.predict_day, ok. intros H.
  repeat bind_ok H.
  injection H as <-. apply py_max_nonneg.
Qed.

(** What a successful [forecast] is made of. *)
Lemma forecast_success (self : DemandForecaster) (product_id days_ahead : Z) (d : Dict) :
  Forecaster.forecast lib db now self product_id days_ahead = ok d ->
  is_error d = false ->
  exists r0 rows dates preds demands average,
    Forecaster.get_sales_data db now (Some product_id) 90 = ok (r0 :: rows)
    /\ Forecaster.date_range
         (Forecaster.max_sale_date r0 rows + Calendar.timedelta 1)%Z days_ahead
       = ok dates
    /\ Forecaster.forecast_loop lib self product_id (r0 :: rows) dates [] = ok preds
    /\ mapM (fun p => let? v := getitem p "predicted_demand" in to_float v) preds
       = ok demands
    /\ true_div (Qsum demands) (inject_Z days_ahead) = ok average
    /\ d = [("success", VBool true);
            ("product_id", VInt product_id);
            ("predictions", VList preds);
            ("total_predicted_demand", VFloat (py_round (Qsum demands) 2));
            ("average_daily_demand", VFloat (py_round average 2))].
Proof.
  unfold Forecaster.forecast, ok. intros H Hd.
  bind_ok H. destruct l as [| r0 rows].
  - injection H as <-. discriminate Hd.
  - repeat bind_ok H. injection H as <-.
    exists r0, rows, l, l0, l1, q. repeat split; assumption.
Qed.

(** A successful [predict_demand] is a successful [forecast] on the
    state it returns. *)
Lemma predict_demand_success (self self' : DemandForecaster)
    (product_id days_ahead : Z) (d : Dict) :
  Forecaster.predict_demand lib db now self product_id days_ahead = (d, self') ->
  is_error d = false ->
  Forecaster.forecast lib db now self' product_id days_ahead = ok d.
Proof.
  assert (Hcatch : forall r d0, catch_error r = d0 -> is_error d0 = false -> r = ok d0).
  { intros [e | d1] d0 <- Hd; [discriminate Hd | reflexivity]. }
  unfold Forecaster.predict_demand. intros H Hd.
  destruct (models self !! product_id).
  - injection H as H <-. now apply Hcatch.
  - destruct (files self !! Forecaster.model_filename product_id).
    + destruct (Forecaster.load_artifacts self product_id) as [[e | u] self1];
        injection H as H <-.
      * subst d. discriminate Hd.
      * now apply Hcatch.
    + destruct (Forecaster.train_demand_model lib db now self product_id)
        as [train_result self1].
      destruct (is_error train_result) eqn:E; injection H as H <-.
      * subst d. congruence.
      * now apply Hcatch.
Qed.

End Forecasting.

Section ForecastClaims.

Context (lib : Library) (db : Session) (now : Timestamp).

Import Num.
Local Open Scope Q_scope.
Local Open Scope list_scope.

(** C9. Every day of a successful [predict_demand] result carries a
    predicted quantity that is at least 0, and there is one day per
    requested horizon day. *)
Theorem predict_demand_nonnegative
    (self self' : DemandForecaster) (product_id days_ahead : Z) (d : Dict) :
  Forecaster.predict_demand lib db now self product_id days_ahead = (d, self') ->
  is_error d = false ->
  exists preds,
    PyDict.get d "predictions" = Some (VList preds)
    /\ length preds = Z.to_nat days_ahead
    /\ Forall (fun p => exists q,
                 PyDict.get p "predicted_demand" = Some (VFloat q) /\ 0 <= q)
              preds.
Proof.
  intros H Hd.
  pose proof (predict_demand_success _ _ _ _ _ _ _ _ H Hd) as Hf.
  destruct (forecast_success _ _ _ _ _ _ _ Hf Hd)
    as (r0 & rows & dates & preds & demands & average
        & _ & Hdates & Hloop & _ & _ & ->).
  destruct (forecast_loop_entries _ _ _ _ _ _ _ Hloop) as (entries & -> & Hall).
  rewrite app_nil_l in *.
  exists entries. split; [reflexivity|]. split.
  - etransitivity; [symmetry; exact (Forall2_length _ _ _ Hall)|].
    unfold Forecaster.date_range in Hdates.
    destruct (days_ahead <? 0)%Z; [discriminate Hdates|].
    injection Hdates as <-. now rewrite length_map, length_seqZ.
  - clear Hloop Hdates H Hd Hf.
    induction Hall as [| date p dates' entries' Hp _ IH]; [constructor|].
    constructor; [|exact IH].
    destruct Hp as (pred & Hpred & ->).
    exists (py_round pred 2). split; [reflexivity|].
    apply py_round_nonneg. eapply predict_day_nonneg, Hpred.
Qed.

(** C1, as the code has it. In every successful [predict_demand] call
    each horizon day is predicted from its own date and from the last 30
    quantities of the observed 90-day history: the same observed snapshot
    serves every day, and no predicted value enters it. *)
Theorem predict_demand_fixed_snapshot
    (self self' : DemandForecaster) (product_id days_ahead : Z) (d : Dict) :
  Forecaster.predict_demand lib db now self product_id days_ahead = (d, self') ->
  is_error d = false ->
  exists r0 rows dates preds,
    Forecaster.get_sales_data db now (Some product_id) 90 = ok (r0 :: rows)
    /\ Forecaster.date_range
         (Forecaster.max_sale_date r0 rows + Calendar.timedelta 1)%Z days_ahead
       = ok dates
    /\ PyDict.get d "predictions" = Some (VList preds)
    /\ Forall2 (fun date p =>
                  exists pred,
                    Forecaster.predict_day lib self' product_id
                      (Forecaster.recent_quantities_of (r0 :: rows)) date = ok pred
                    /\ p = Forecaster.prediction_entry date pred)
               dates preds.
Proof.
  intros H Hd.
  pose proof (predict_demand_success _ _ _ _ _ _ _ _ H Hd) as Hf.
  destruct (forecast_success _ _ _ _ _ _ _ Hf Hd)
    as (r0 & rows & dates & preds & demands & average
        & Hsales & Hdates & Hloop & _ & _ & ->).
  exists r0, rows, dates, preds. repeat split; try assumption.
  destruct (forecast_loop_entries _ _ _ _ _ _ _ Hloop) as (entries & -> & Hall).
  exact Hall.
Qed.

End ForecastClaims.

Lemma predict_demand_nonnegative_witness :
  exists preds,
    PyDict.get (fst (Forecaster.predict_demand Example.lib Example.db Example.now
                       Example.fresh 5 3)) "predictions" = Some (VList preds)
    /\ length preds = 3%nat
    /\ Forall (fun p => exists q,
                 PyDict.get p "predicted_demand" = Some (VFloat q) /\ (0 <= q)%Q)
              preds.
Proof.
  eapply (predict_demand_nonnegative Example.lib Example.db Example.now
            Example.fresh _ 5 3).
  - apply surjective_pairing.
  - vm_compute. reflexivity.
Defined.

Lemma predict_demand_fixed_snapshot_witness :
  exists r0 rows dates preds,
    Forecaster.get_sales_data Example.db Example.now (Some 1%Z) 90 = ok (r0 :: rows)
    /\ Forecaster.date_range
         (Forecaster.max_sale_date r0 rows + Calendar.timedelta 1)%Z 2 = ok dates
    /\ PyDict.get (fst (Forecaster.predict_demand Example.lib Example.db Example.now
                          Example.with_lag_model 1 2)) "predictions"
       = Some (VList preds)
    /\ Forall2 (fun date p =>
                  exists pred,
                    Forecaster.predict_day Example.lib
                      (snd (Forecaster.predict_demand Example.lib Example.db
                              Example.now Example.with_lag_model 1 2))
                      1 (Forecaster.recent_quantities_of (r0 :: rows)) date = ok pred
                    /\ p = Forecaster.prediction_entry date pred)
               dates preds.
Proof.
  eapply (predict_demand_fixed_snapshot Example.lib Example.db Example.now
            Example.with_lag_model _ 1 2).
  - apply surjective_pairing.
  - vm_compute. reflexivity.
Defined.

(** C1, as the specification words it, fails. With a model that answers
    [sales_lag_1 + 1] and a last observed quantity of 10, the code predicts
    11 for both days of a two-day horizon, while the autoregressive walk
    over the same history and dates predicts 11 and then 12. *)
Lemma predict_demand_not_autoregressive :
  exists preds preds',
    PyDict.get (fst (Forecaster.predict_demand Example.lib Example.db Example.now
                       Example.with_lag_model 1 2)) "predictions"
    = Some (VList preds)
    /\ Specification.predicted_values preds
       = [Some (VFloat (1100 # 100)); Some (VFloat (1100 # 100))]
    /\ Specification.forecast_autoregressive Example.lib Example.db Example.now
         Example.with_lag_model 1 2 = ok preds'
    /\ Specification.predicted_values preds'
       = [Some (VFloat (1100 # 100)); Some (VFloat (1200 # 100))]
    /\ preds <> preds'.
Proof.
  eexists. eexists.
  split; [vm_compute; reflexivity|].
  split; [vm_compute; reflexivity|].
  split; [vm_compute; reflexivity|].
  split; [vm_compute; reflexivity|].
  intros H. apply (f_equal Specification.predicted_values) in H.
  vm_compute in H. discriminate H.
Qed.


(** ** Model selection *)

Section ModelSelection.

Context (lib : Library) (db : Session) (now : Timestamp).

Import Num.
Local Open Scope Q_scope.



End ModelSelection.



(** ** Price optimisation *)

Section PriceScan.

Import Num.
Local Open Scope Q_scope.
Local Open Scope list_scope.

Abbreviation argmax := PriceOptimizer.argmax.
Abbreviation argmax_from := PriceOptimizer.argmax_from.

(** The index returned by the scan is in range, and every earlier entry
    is strictly smaller than the entry it points to. *)
Lemma argmax_from_first (l : list Q) :
  forall (pre : list Q) (best_i : nat) (best : Q),
    (best_i < length pre)%nat ->
    nth best_i pre 0 = best ->
    (forall j, (j < length pre)%nat -> nth j pre 0 <= best) ->
    (forall j, (j < best_i)%nat -> nth j pre 0 < best) ->
    let r := argmax_from l (length pre) best_i best in
    (r < length (pre ++ l))%nat
    /\ forall j, (j < r)%nat -> nth j (pre ++ l) 0 < nth r (pre ++ l) 0.
Proof.
  induction l as [| x l IH]; intros pre best_i best Hi Hb Hle Hlt; cbn.
  - rewrite app_nil_r. split; [exact Hi|].
    intros j Hj. rewrite Hb. now apply Hlt.
  - assert (Hlen : length (pre ++ [x]) = S (length pre))
      by (rewrite length_app; cbn; lia).
    replace (pre ++ x :: l) with ((pre ++ [x]) ++ l) by now rewrite <- app_assoc.
    destruct (Qltb best x) eqn:C.
    + apply Qltb_true in C.
      specialize (IH (pre ++ [x]) (length pre) x).
      rewrite Hlen in IH. apply IH.
      * lia.
      * now rewrite app_nth2, Nat.sub_diag by lia.
      * intros j Hj. destruct (Nat.eq_dec j (length pre)) as [-> | Hne].
        -- rewrite app_nth2, Nat.sub_diag by lia. cbn. lra.
        -- rewrite app_nth1 by lia. specialize (Hle j ltac:(lia)). lra.
      * intros j Hj. rewrite app_nth1 by lia. specialize (Hle j Hj). lra.
    + apply Qltb_false in C.
      specialize (IH (pre ++ [x]) best_i best).
      rewrite Hlen in IH. apply IH.
      * lia.
      * now rewrite app_nth1 by lia.
      * intros j Hj. destruct (Nat.eq_dec j (length pre)) as [-> | Hne].
        -- now rewrite app_nth2, Nat.sub_diag by lia.
        -- rewrite app_nth1 by lia. apply Hle. lia.
      * intros j Hj. rewrite app_nth1 by lia. now apply Hlt.
Qed.

Lemma argmax_first (l : list Q) :
  l <> [] ->
  (argmax l < length l)%nat
  /\ forall j, (j < argmax l)%nat -> nth j l 0 < nth (argmax l) l 0.
Proof.
  destruct l as [| x l]; [congruence | intros _].
  apply (argmax_from_first l [x] 0%nat x); cbn; try lia; try reflexivity.
  - intros j Hj. assert (j = 0)%nat as -> by lia. cbn. lra.
Qed.

Lemma linspace_length (start stop : Q) (num : nat) :
  length (PriceOptimizer.linspace start stop num) = num.
Proof.
  unfold PriceOptimizer.linspace. rewrite length_map, length_seqZ. lia.
Qed.

Lemma linspace_first (start stop : Q) (num : nat) :
  nth 0 (PriceOptimizer.linspace start stop (S num)) 0 == start.
Proof.
  unfold PriceOptimizer.linspace.
  rewrite seqZ_cons by lia. cbn [map nth].
  change (inject_Z 0) with 0. lra.
Qed.

End PriceScan.

Section PriceClaims.

Context (lib : Library) (db : Session) (now : Timestamp).

Import Num.
Local Open Scope Q_scope.
Local Open Scope list_scope.

Lemma or_else_pos (avg : option Q) (fallback : Q) :
  0 < fallback ->
  (forall a, avg = Some a -> 0 <= a) ->
  0 < PriceOptimizer.or_else avg fallback.
Proof.
  intros Hf Ha. unfold PriceOptimizer.or_else.
  destruct avg as [a |]; [|exact Hf].
  specialize (Ha a eq_refl).
  destruct (Qeq_bool a 0) eqn:E; [exact Hf|].
  apply Qeq_bool_neq in E. lra.
Qed.

(** With a power that is never negative and a positive base demand, the
    price picked by the scan lies strictly above cost. *)
Lemma scan_above_cost (cost base_demand current_price elasticity : Q) :
  (forall x e, 0 < x -> 0 <= float_pow lib x e) ->
  0 < cost -> 0 < current_price -> 0 < base_demand ->
  cost < PriceOptimizer.scan_optimal_price lib cost base_demand current_price elasticity.
Proof.
  intros Hpow Hcost Hprice Hbase.
  unfold PriceOptimizer.scan_optimal_price.
  set (range := PriceOptimizer.price_range cost current_price).
  set (f := PriceOptimizer.profit_function lib cost base_demand current_price elasticity).
  assert (Hlen : length range = 100%nat) by apply linspace_length.
  assert (Hne : map f range <> []).
  { intros E. apply (f_equal (@length Q)) in E. rewrite length_map, Hlen in E.
    discriminate E. }
  destruct (argmax_first (map f range) Hne) as [Hk Hfirst].
  rewrite length_map in Hk.
  set (k := PriceOptimizer.argmax (map f range)) in *.
  assert (H0 : nth 0 range 0 == cost * (11 # 10)) by apply linspace_first.
  assert (Hnth : forall j, (j < length range)%nat ->
                           nth j (map f range) 0 = f (nth j range 0)).
  { intros j Hj. rewrite (nth_indep _ 0 (f 0)) by now rewrite length_map.
    apply map_nth. }
  destruct (Nat.eq_dec k 0) as [-> | Hk0]; [lra|].
  specialize (Hfirst 0%nat ltac:(lia)).
  rewrite !Hnth in Hfirst by lia.
  assert (Hf0 : 0 <= f (nth 0 range 0)).
  { unfold f, PriceOptimizer.profit_function.
    destruct (Qle_bool (nth 0 range 0) cost); [lra|].
    apply Qmult_le_0_compat; [lra|].
    apply Qmult_le_0_compat; [lra|].
    apply Hpow. apply Qlt_shift_div_l; lra. }
  unfold f at 2, PriceOptimizer.profit_function in Hfirst.
  destruct (Qle_bool (nth k range 0) cost) eqn:E; [lra|].
  apply Qnot_le_lt. intros Hle. apply Qle_bool_iff in Hle. congruence.
Qed.

(** C8, as the code has it. For a positive cost, a positive current
    price and recent sales that are not negative, the price picked by the
    scan is strictly greater than cost; the reported [optimal_price] is
    that price rounded to two decimals, so it exceeds cost minus half a
    cent. *)
Theorem optimize_price_scan_above_cost
    (product_id : Z) (current_cost target_margin : Q)
    (product : ProductRow) (price : Q) (avg : option Q) (d : Dict) :
  (forall x e, 0 < x -> 0 <= float_pow lib x e) ->
  select_product db product_id = ok (Some product) ->
  p_price product = Some price ->
  0 < price ->
  0 < PriceOptimizer.or_else (p_cost product) current_cost ->
  select_avg_daily_sales db product_id None (now - Calendar.timedelta 30)%Z = ok avg ->
  (forall a, avg = Some a -> 0 <= a) ->
  PriceOptimizer.optimize_price lib db now product_id current_cost target_margin = d ->
  is_error d = false ->
  exists elasticity,
    let cost := PriceOptimizer.or_else (p_cost product) current_cost in
    let optimal :=
      PriceOptimizer.scan_optimal_price lib cost (PriceOptimizer.or_else avg 1)
        price elasticity in
    cost < optimal
    /\ PyDict.get d "optimal_price" = Some (VFloat (py_round optimal 2))
    /\ cost - (5 # 1000) < py_round optimal 2.
Proof.
  intros Hpow Hprod Hp Hprice Hcost Havg Hnonneg H Hd.
  unfold PriceOptimizer.optimize_price, PriceOptimizer.optimize_body in H.
  rewrite Hprod in H. cbn [bind ok] in H. rewrite Hp in H.
  cbn [PriceOptimizer.float_of_option bind ok] in H.
  set (cost := PriceOptimizer.or_else (p_cost product) current_cost) in *.
  match type of H with
  | catch_error (bind ?m _) = _ => destruct m as [e | elasticity] eqn:He
  end.
  { subst d. discriminate Hd. }
  cbn [bind] in H. rewrite Havg in H. cbn [bind ok] in H.
  set (base_demand := PriceOptimizer.or_else avg 1) in *.
  assert (Hbase : 0 < base_demand) by (apply or_else_pos; [lra | exact Hnonneg]).
  pose proof (scan_above_cost cost base_demand price elasticity
                Hpow Hcost Hprice Hbase) as Hscan.
  exists elasticity. cbn zeta. split; [exact Hscan|].
  split.
  - repeat match type of H with
           | catch_error (bind ?m _) = _ =>
               destruct m; [subst d; discriminate Hd | cbn [bind] in H]
           end.
    cbn [catch_error ok] in H. subst d. reflexivity.
  - pose proof (py_round_above
                  (PriceOptimizer.scan_optimal_price lib cost base_demand price
                     elasticity) 2) as Hr.
    change (inject_Z (10 ^ Z.of_nat 2)) with 100 in Hr.
    assert (Hhalf : (1 # 2) / 100 == 5 # 1000) by reflexivity.
    rewrite Hhalf in Hr. lra.
Qed.

(** C10. When the stored cost of the product is neither NULL nor zero,
    [optimize_price] returns the same result whatever [current_cost] the
    caller passes. *)
Theorem optimize_price_ignores_current_cost
    (product_id : Z) (product : ProductRow) (stored : Q)
    (cost1 cost2 target_margin : Q) :
  select_product db product_id = ok (Some product) ->
  p_cost product = Some stored ->
  ~ stored == 0 ->
  PriceOptimizer.optimize_price lib db now product_id cost1 target_margin
  = PriceOptimizer.optimize_price lib db now product_id cost2 target_margin.
Proof.
  intros Hprod Hcost Hnz.
  assert (Hor : forall c, PriceOptimizer.or_else (p_cost product) c = stored).
  { intros c. unfold PriceOptimizer.or_else. rewrite Hcost.
    destruct (Qeq_bool stored 0) eqn:E; [|reflexivity].
    apply Qeq_bool_iff in E. contradiction. }
  unfold PriceOptimizer.optimize_price, PriceOptimizer.optimize_body.
  rewrite Hprod. cbn [bind ok]. now rewrite !Hor.
Qed.

End PriceClaims.

(** The stand-ins of the example world have the properties the theorems ask
    of the numeric library. *)
Section ExampleFacts.

Local Open Scope Q_scope.

Lemma example_pow_nonneg (x e : Q) : 0 < x -> 0 <= float_pow Example.lib x e.
Proof.
  intros Hx. cbn. unfold Example.pow_int. apply Qpower_0_le. lra.
Qed.

Lemma example_sqrt_nonneg (x : Q) : 0 <= np_sqrt Example.lib x.
Proof.
  cbn. unfold Example.sqrt6.
  apply Qmult_le_0_compat; [|discriminate].
  change 0 with (inject_Z 0). rewrite <- Zle_Qle. apply Z.sqrt_nonneg.
Qed.

Lemma example_ppf_monotone (a b : Q) :
  0 < a -> a <= b -> b < 1 -> norm_ppf Example.lib a <= norm_ppf Example.lib b.
Proof.
  intros _ Hab _. cbn. unfold Example.ppf3. lra.
Qed.

End ExampleFacts.

Lemma optimize_price_scan_above_cost_witness :
  exists elasticity,
    let optimal :=
      PriceOptimizer.scan_optimal_price Example.lib 30 10 50 elasticity in
    (30 < optimal)%Q
    /\ PyDict.get (PriceOptimizer.optimize_price Example.lib Example.db Example.now
                     1 0 (3 # 10)) "optimal_price"
       = Some (VFloat (Num.py_round optimal 2))
    /\ (30 - (5 # 1000) < Num.py_round optimal 2)%Q.
Proof.
  apply (optimize_price_scan_above_cost Example.lib Example.db Example.now
           1 0 (3 # 10)
           {| p_price := Some 50%Q; p_cost := Some 30%Q; p_name := "router" |}
           50%Q (Some 10%Q)).
  - exact example_pow_nonneg.
  - reflexivity.
  - reflexivity.
  - reflexivity.
  - reflexivity.
  - vm_compute. reflexivity.
  - intros a [= <-]. discriminate.
  - reflexivity.
  - vm_compute. reflexivity.
Defined.

(** C8, as the specification words it, fails. Product 3 costs 0.04 and is
    priced at 0.01, with no sales: the scan picks 0.044, the first
    candidate, and the reported [optimal_price] is 0.04, the cost itself. *)
Lemma optimize_price_rounds_to_cost :
  exists product reported,
    select_product Example.db 3 = ok (Some product)
    /\ p_cost product = Some (4 # 100)%Q
    /\ p_price product = Some (1 # 100)%Q
    /\ PyDict.get (PriceOptimizer.optimize_price Example.lib Example.db Example.now
                     3 0 (3 # 10)) "optimal_price" = Some (VFloat reported)
    /\ (reported <= 4 # 100)%Q.
Proof.
  eexists. eexists.
  split; [reflexivity|].
  split; [reflexivity|].
  split; [reflexivity|].
  split; [vm_compute; reflexivity|].
  discriminate.
Qed.

Lemma optimize_price_ignores_current_cost_witness :
  PriceOptimizer.optimize_price Example.lib Example.db Example.now 1 0 (3 # 10)
  = PriceOptimizer.optimize_price Example.lib Example.db Example.now 1 999 (3 # 10).
Proof.
  apply (optimize_price_ignores_current_cost Example.lib Example.db Example.now 1
           {| p_price := Some 50%Q; p_cost := Some 30%Q; p_name := "router" |} 30%Q).
  - reflexivity.
  - reflexivity.
  - discriminate.
Defined.

(** ** Reorder points *)

Section ReorderLemmas.

Context (lib : Library) (db : Session) (now : Timestamp).

Import Num.
Local Open Scope Q_scope.
Local Open Scope list_scope.

Lemma Qsum_nonneg (l : list Q) : Forall (fun q => 0 <= q) l -> 0 <= Qsum l.
Proof.
  induction 1 as [| q l Hq _ IH]; cbn; [lra|].
  unfold Qsum in IH. lra.
Qed.

(** The demands summed by [forecast] are the rounded, clamped predictions. *)
Lemma forecast_demands_nonneg (self : DemandForecaster) (product_id : Z)
    (quantities : list Q) (dates : list Timestamp) (preds : list Dict) :
  Forall2 (fun date p =>
             exists pred,
               Forecaster.predict_day lib self product_id quantities date = ok pred
               /\ p = Forecaster.prediction_entry date pred)
          dates preds ->
  forall demands,
    mapM (fun p => let? v := getitem p "predicted_demand" in to_float v) preds
    = ok demands ->
    Forall (fun q => 0 <= q) demands.
Proof.
  induction 1 as [| date p dates preds (pred & Hpred & ->) _ IH];
    intros demands H; cbn in H; unfold ok in *.
  - injection H as <-. constructor.
  - bind_ok H. injection H as <-. constructor.
    + apply py_round_nonneg. eapply predict_day_nonneg, Hpred.
    + now apply IH.
Qed.

(** The average of a successful forecast is not negative. *)
Lemma forecast_average_nonneg (self self' : DemandForecaster)
    (product_id days_ahead : Z) (d : Dict) :
  Forecaster.predict_demand lib db now self product_id days_ahead = (d, self') ->
  is_error d = false ->
  (0 < days_ahead)%Z ->
  exists average,
    getitem d "average_daily_demand" = ok (VFloat average) /\ 0 <= average.
Proof.
  intros H Hd Hdays.
  pose proof (predict_demand_success _ _ _ _ _ _ _ _ H Hd) as Hf.
  destruct (forecast_success _ _ _ _ _ _ _ Hf Hd)
    as (r0 & rows & dates & preds & demands & average
        & _ & _ & Hloop & Hdemands & Hdiv & ->).
  eexists. split; [reflexivity|].
  destruct (forecast_loop_entries _ _ _ _ _ _ _ Hloop) as (entries & -> & Hall).
  rewrite app_nil_l in Hdemands.
  pose proof (Qsum_nonneg _ (forecast_demands_nonneg _ _ _ _ _ Hall _ Hdemands)) as Hsum.
  unfold true_div in Hdiv.
  destruct (Qeq_bool (inject_Z days_ahead) 0); [discriminate Hdiv|].
  injection Hdiv as <-.
  apply py_round_nonneg. apply Qle_shift_div_l.
  - change 0 with (inject_Z 0). now rewrite <- Zlt_Qlt.
  - lra.
Qed.

(** Safety stock, before rounding, grows with the service level. *)
Lemma safety_stock_of_monotone (s1 s2 demand_std : Q) :
  (forall a b, 0 < a -> a <= b -> b < 1 -> norm_ppf lib a <= norm_ppf lib b) ->
  (forall x, 0 <= np_sqrt lib x) ->
  0 <= demand_std ->
  0 < s1 -> s1 <= s2 -> s2 < 1 ->
  AutoReorder.safety_stock_of lib s1 demand_std
  <= AutoReorder.safety_stock_of lib s2 demand_std.
Proof.
  intros Hppf Hsqrt Hstd H1 H12 H2. unfold AutoReorder.safety_stock_of.
  apply Qmult_le_compat_r; [|apply Hsqrt].
  apply Qmult_le_compat_r; [|exact Hstd].
  now apply Hppf.
Qed.

(** The fallback never reports a safety stock. *)
Lemma simple_has_no_safety_stock (product_id location_id : Z) :
  PyDict.get (AutoReorder._simple_reorder_calculation lib db now product_id location_id)
    "safety_stock" = None.
Proof.
  unfold AutoReorder._simple_reorder_calculation, AutoReorder.simple_body.
  destruct (select_avg_daily_sales db product_id (Some location_id)
              (now - Calendar.timedelta 30)%Z); reflexivity.
Qed.

End ReorderLemmas.

Section ReorderClaims.

Context (lib : Library) (db : Session) (now : Timestamp).

Import Num.
Local Open Scope Q_scope.
Local Open Scope list_scope.


(** C7. With a quantile function that is monotone on (0,1) and a square
    root that is never negative, raising the service level from [s1] to
    [s2] on the same store and forecaster turns a forecast-based result
    into a forecast-based result whose safety stock and reorder point are
    at least as large. *)
Theorem reorder_point_monotone_in_service_level
    (fc fc1 : DemandForecaster) (product_id location_id : Z)
    (s1 s2 : Q) (d1 : Dict) (ss1 rp1 : Q) :
  (forall a b, 0 < a -> a <= b -> b < 1 -> norm_ppf lib a <= norm_ppf lib b) ->
  (forall x, 0 <= np_sqrt lib x) ->
  0 < s1 -> s1 <= s2 -> s2 < 1 ->
  AutoReorder.calculate_reorder_point lib db now fc product_id location_id s1
  = (d1, fc1) ->
  PyDict.get d1 "safety_stock" = Some (VFloat ss1) ->
  PyDict.get d1 "reorder_point" = Some (VFloat rp1) ->
  exists d2 ss2 rp2,
    AutoReorder.calculate_reorder_point lib db now fc product_id location_id s2
    = (d2, fc1)
    /\ PyDict.get d2 "safety_stock" = Some (VFloat ss2)
    /\ PyDict.get d2 "reorder_point" = Some (VFloat rp2)
    /\ ss1 <= ss2
    /\ rp1 <= rp2.
Proof.
  intros Hppf Hsqrt H1 H12 H2.
  unfold AutoReorder.calculate_reorder_point. intros H Hss Hrp.
  destruct (Forecaster.predict_demand lib db now fc product_id 30)
    as [forecast fcx] eqn:Hp.
  destruct (is_error forecast) eqn:Hf; injection H as <- <-.
  { rewrite simple_has_no_safety_stock in Hss. discriminate Hss. }
  destruct (forecast_average_nonneg _ _ _ _ _ _ _ _ Hp Hf ltac:(lia))
    as (avg & Havg & Havg0).
  unfold AutoReorder.statistical_body in *.
  rewrite Havg in *. cbn [bind to_float ok] in *.
  destruct (select_daily_sales db product_id location_id
              (now - Calendar.timedelta 90)%Z) as [e | daily_sales];
    [discriminate Hss | cbn [bind] in *].
  destruct (select_product db product_id) as [e | product];
    [discriminate Hss | cbn [bind] in *].
  set (demand_std := if (len daily_sales <? 10)%Z then avg * (3 # 10)
                     else AutoReorder.pd_std lib (map snd daily_sales)) in *.
  assert (Hstd : 0 <= demand_std).
  { subst demand_std. destruct (len daily_sales <? 10)%Z; [|apply Hsqrt].
    apply Qmult_le_0_compat; [exact Havg0 | discriminate]. }
  pose proof (safety_stock_of_monotone lib s1 s2 demand_std
                Hppf Hsqrt Hstd H1 H12 H2) as Hmono.
  cbn in Hss, Hrp. injection Hss as <-. injection Hrp as <-.
  eexists _, _, _. split; [reflexivity|].
  split; [reflexivity|]. split; [reflexivity|].
  split; apply py_round_mono; lra.
Qed.

End ReorderClaims.



Lemma reorder_point_monotone_witness :
  exists d2 ss2 rp2,
    AutoReorder.calculate_reorder_point Example.lib Example.db Example.now
      Example.fresh 5 1 (95 # 100)
    = (d2, snd (AutoReorder.calculate_reorder_point Example.lib Example.db
                  Example.now Example.fresh 5 1 (1 # 2)))
    /\ PyDict.get d2 "safety_stock" = Some (VFloat ss2)
    /\ PyDict.get d2 "reorder_point" = Some (VFloat rp2)
    /\ (0 # 1 <= ss2)%Q
    /\ (70 # 1 <= rp2)%Q.
Proof.
  apply (reorder_point_monotone_in_service_level Example.lib Example.db Example.now
           Example.fresh _ 5 1 (1 # 2) (95 # 100)
           (fst (AutoReorder.calculate_reorder_point Example.lib Example.db
                   Example.now Example.fresh 5 1 (1 # 2)))).
  - exact example_ppf_monotone.
  - exact example_sqrt_nonneg.
  - reflexivity.
  - discriminate.
  - reflexivity.
  - apply surjective_pairing.
  - vm_compute. reflexivity.
  - vm_compute. reflexivity.
Defined.

(** ** Batch suggestions *)

Section BatchLemmas.

Context (lib : Library) (db : Session) (now : Timestamp).

Import Num.
Local Open Scope list_scope.

Abbreviation suggestion_for :=
  (fun pc : LowStockRow * Dict => AutoReorder.suggestion_of (fst pc) (snd pc)).

(** Both successful shapes of a reorder calculation have the three
    entries a suggestion reads. *)
Lemma suggestion_of_success (fc fc' : DemandForecaster) (product : LowStockRow)
    (service_level : Q) (d : Dict) :
  AutoReorder.calculate_reorder_point lib db now fc (ls_product_id product)
    (ls_location_id product) service_level = (d, fc') ->
  is_error d = false ->
  exists s,
    AutoReorder.suggestion_of product d = ok s
    /\ Specification.mentions product s
    /\ is_error s = false.
Proof.
  unfold AutoReorder.calculate_reorder_point. intros H Hd.
  destruct (Forecaster.predict_demand lib db now fc (ls_product_id product) 30)
    as [forecast fc1].
  destruct (is_error forecast); injection H as <- _.
  - unfold AutoReorder._simple_reorder_calculation, AutoReorder.simple_body in *.
    destruct (select_avg_daily_sales db (ls_product_id product)
                (Some (ls_location_id product)) (now - Calendar.timedelta 30)%Z);
      [discriminate Hd|].
    eexists. split; [reflexivity|]. repeat split.
  - unfold AutoReorder.statistical_body in *.
    repeat match type of Hd with
           | is_error (catch_error (bind ?m _)) = false =>
               destruct m; [discriminate Hd | cbn [bind] in Hd |- *]
           end.
    eexists. split; [reflexivity|]. repeat split.
Qed.

(** The loop appends one suggestion per successful calculation, in scan
    order, and passes over the failed ones. *)
Lemma suggestion_loop_trace (rows : list LowStockRow) :
  forall (fc : DemandForecaster) (acc : list Dict),
  exists suggestions,
    Forall2 (fun pc s => suggestion_for pc = ok s
                         /\ Specification.mentions (fst pc) s
                         /\ is_error s = false)
            (Specification.succeeded (Specification.calculation_trace lib db now rows fc))
            suggestions
    /\ fst (AutoReorder.suggestion_loop lib db now rows fc acc)
       = ok (acc ++ suggestions).
Proof.
  induction rows as [| product rest IH]; intros fc acc; cbn.
  - exists []. rewrite app_nil_r. split; constructor.
  - destruct (AutoReorder.calculate_reorder_point lib db now fc
                (ls_product_id product) (ls_location_id product)
                AutoReorder.default_service_level) as [calc fc1] eqn:Hcalc.
    unfold Specification.succeeded. cbn [List.filter snd].
    destruct (is_error calc) eqn:Herr; cbn [negb].
    + apply IH.
    + destruct (suggestion_of_success _ _ _ _ _ Hcalc Herr) as (s & Hs & Hm & He).
      rewrite Hs.
      destruct (IH fc1 (acc ++ [s])) as (suggestions & Hall & Hloop).
      exists (s :: suggestions). split.
      * constructor; [|exact Hall]. cbn [fst snd]. auto.
      * unfold ok at 1. cbn iota. rewrite Hloop. now rewrite <- app_assoc.
Qed.

Lemma insert_desc_permutation (x : Dict) (l : list Dict) :
  Permutation (AutoReorder.insert_desc x l) (x :: l).
Proof.
  induction l as [| y l IH]; cbn; [reflexivity|].
  destruct (AutoReorder.priority_key y <=? AutoReorder.priority_key x)%Z;
    [reflexivity|].
  rewrite IH. apply perm_swap.
Qed.

Lemma sort_by_priority_permutation (l : list Dict) :
  Permutation (AutoReorder.sort_by_priority l) l.
Proof.
  induction l as [| x l IH]; cbn; [reflexivity|].
  rewrite insert_desc_permutation. now constructor.
Qed.

(** C5, as the code has it. When the low-stock query answers, the batch
    returns, sorted by priority, exactly one suggestion for every pair
    whose calculation succeeded, whatever happened to the other pairs;
    a pair whose calculation failed leaves no entry in the output. *)
Theorem generate_returns_exactly_the_successes
    (fc : DemandForecaster) (location_id : option Z) (rows : list LowStockRow) :
  select_low_stock db (Forecaster.truthy_id location_id) = ok rows ->
  let trace := Specification.calculation_trace lib db now rows fc in
  let out := fst (AutoReorder.generate_reorder_suggestions lib db now fc location_id) in
  exists suggestions,
    Forall2 (fun pc s => suggestion_for pc = ok s
                         /\ Specification.mentions (fst pc) s
                         /\ is_error s = false)
            (Specification.succeeded trace) suggestions
    /\ out = AutoReorder.sort_by_priority suggestions
    /\ Permutation out suggestions
    /\ length out = length (Specification.succeeded trace).
Proof.
  intros Hrows trace out. subst trace out.
  unfold AutoReorder.generate_reorder_suggestions. rewrite Hrows.
  destruct (suggestion_loop_trace rows fc []) as (suggestions & Hall & Hloop).
  unfold ok in *. cbv iota beta.
  destruct (AutoReorder.suggestion_loop lib db now rows fc []) as [r fc1].
  cbn [fst] in Hloop. subst r. cbn [app fst].
  exists suggestions. split; [exact Hall|]. split; [reflexivity|].
  split; [apply sort_by_priority_permutation|].
  rewrite (Permutation_length (sort_by_priority_permutation suggestions)).
  symmetry. exact (Forall2_length _ _ _ Hall).
Qed.

End BatchLemmas.

Lemma generate_returns_exactly_the_successes_witness :
  let trace := Specification.calculation_trace Example.lib Example.db Example.now
                 Example.low_stock_table Example.fresh in
  let out := fst (AutoReorder.generate_reorder_suggestions Example.lib Example.db
                    Example.now Example.fresh None) in
  exists suggestions,
    Forall2 (fun pc s => AutoReorder.suggestion_of (fst pc) (snd pc) = ok s
                         /\ Specification.mentions (fst pc) s
                         /\ is_error s = false)
            (Specification.succeeded trace) suggestions
    /\ out = AutoReorder.sort_by_priority suggestions
    /\ Permutation out suggestions
    /\ length out = length (Specification.succeeded trace).
Proof.
  apply (generate_returns_exactly_the_successes Example.lib Example.db Example.now
           Example.fresh None Example.low_stock_table).
  reflexivity.
Defined.

(** C5, as the specification words it, fails. In the example store the
    calculation for product 4 fails and those for products 2, 1 and 5
    succeed: the batch returns the three suggestions, and nothing in the
    returned list is an error entry or speaks of product 4. *)
Lemma failed_pair_is_not_reported :
  let trace := Specification.calculation_trace Example.lib Example.db Example.now
                 Example.low_stock_table Example.fresh in
  let out := fst (AutoReorder.generate_reorder_suggestions Example.lib Example.db
                    Example.now Example.fresh None) in
  map (fun pc => ls_product_id (fst pc)) (Specification.failed trace) = [4%Z]
  /\ map (fun pc => ls_product_id (fst pc)) (Specification.succeeded trace)
     = [2%Z; 1%Z; 5%Z]
  /\ map (fun s => PyDict.get s "product_id") out
     = [Some (VInt 1); Some (VInt 2); Some (VInt 5)]
  /\ map is_error out = [false; false; false].
Proof.
  repeat split; vm_compute; reflexivity.
Qed.

(** ** Priorities and ranking *)

Section Priority.

Import Num.
Local Open Scope Q_scope.
Local Open Scope list_scope.

Lemma Qle_bool_false (a b : Q) : Qle_bool a b = false <-> b < a.
Proof.
  split.
  - intros E. apply Qnot_le_lt. intros H. apply Qle_bool_iff in H. congruence.
  - intros H. destruct (Qle_bool a b) eqn:E; [|reflexivity].
    apply Qle_bool_iff in E. lra.
Qed.

(** The four answers of [_calculate_priority]. *)
Lemma calculate_priority_cases (current_stock reorder_level : Z) :
  ((current_stock <= 0)%Z
   /\ AutoReorder._calculate_priority current_stock reorder_level = 100%Z)
  \/ ((0 < current_stock)%Z
      /\ In (AutoReorder._calculate_priority current_stock reorder_level)
            [80%Z; 60%Z; 40%Z]).
Proof.
  unfold AutoReorder._calculate_priority.
  destruct (current_stock <=? 0)%Z eqn:E.
  - apply Z.leb_le in E. left. tauto.
  - apply Z.leb_gt in E. right. split; [exact E|].
    destruct (Qle_bool _ _); [|destruct (Qle_bool _ _)]; cbn; auto.
Qed.

(** X1. [_calculate_priority] answers 100 exactly when the stock is zero or
    negative, and otherwise one of 80, 60 and 40. *)
Theorem priority_100_iff_out_of_stock (current_stock reorder_level : Z) :
  (AutoReorder._calculate_priority current_stock reorder_level = 100%Z
   <-> (current_stock <= 0)%Z)
  /\ In (AutoReorder._calculate_priority current_stock reorder_level)
        [100%Z; 80%Z; 60%Z; 40%Z].
Proof.
  destruct (calculate_priority_cases current_stock reorder_level)
    as [[Hle ->] | [Hpos Hin]].
  - split; [tauto | cbn; auto].
  - split; [|cbn in *; tauto].
    split; [|lia]. intros E. rewrite E in Hin. cbn in Hin.
    destruct Hin as [H | [H | [H | []]]]; discriminate H.
Qed.

(** X2. For a fixed reorder level the priority never grows with the stock:
    less stock means an equal or higher priority. *)
Theorem priority_antitone_in_stock (stock1 stock2 reorder_level : Z) :
  (stock1 <= stock2)%Z ->
  (AutoReorder._calculate_priority stock2 reorder_level
   <= AutoReorder._calculate_priority stock1 reorder_level)%Z.
Proof.
  intros Hle. unfold AutoReorder._calculate_priority.
  destruct (stock1 <=? 0)%Z eqn:E1.
  { destruct (stock2 <=? 0)%Z; [lia|].
    destruct (Qle_bool _ _); [lia|]. destruct (Qle_bool _ _); lia. }
  apply Z.leb_gt in E1.
  destruct (stock2 <=? 0)%Z eqn:E2; [apply Z.leb_le in E2; lia|].
  clear E1 E2. rewrite Zle_Qle in Hle.
  destruct (Qle_bool (inject_Z stock1) (inject_Z reorder_level * (1 # 2))) eqn:A1.
  { destruct (Qle_bool (inject_Z stock2) (inject_Z reorder_level * (1 # 2)));
      [|destruct (Qle_bool (inject_Z stock2) (inject_Z reorder_level * (3 # 4)))];
      apply Z.leb_le; reflexivity. }
  apply Qle_bool_false in A1.
  destruct (Qle_bool (inject_Z stock2) (inject_Z reorder_level * (1 # 2))) eqn:A2.
  { apply Qle_bool_iff in A2. lra. }
  clear A2.
  destruct (Qle_bool (inject_Z stock1) (inject_Z reorder_level * (3 # 4))) eqn:B1.
  { destruct (Qle_bool (inject_Z stock2) (inject_Z reorder_level * (3 # 4)));
      apply Z.leb_le; reflexivity. }
  apply Qle_bool_false in B1.
  destruct (Qle_bool (inject_Z stock2) (inject_Z reorder_level * (3 # 4))) eqn:B2.
  { apply Qle_bool_iff in B2. lra. }
  apply Z.leb_le; reflexivity.
Qed.

End Priority.

Lemma priority_antitone_in_stock_witness :
  (AutoReorder._calculate_priority 8 10 <= AutoReorder._calculate_priority 3 10)%Z.
Proof.
  apply priority_antitone_in_stock. lia.
Defined.

Section Ranking.

Context (lib : Library) (db : Session) (now : Timestamp).

Import Num.
Local Open Scope list_scope.

Abbreviation by_priority :=
  (fun a b : Dict => (AutoReorder.priority_key b <= AutoReorder.priority_key a)%Z).

Lemma insert_desc_sorted (x : Dict) (l : list Dict) :
  StronglySorted by_priority l ->
  StronglySorted by_priority (AutoReorder.insert_desc x l).
Proof.
  induction 1 as [| y l Hs IH Hy]; cbn.
  - repeat constructor.
  - destruct (AutoReorder.priority_key y <=? AutoReorder.priority_key x)%Z eqn:E.
    + apply Z.leb_le in E. constructor; [now constructor|].
      constructor; [exact E|].
      eapply Forall_impl; [exact Hy|]. cbn. intros z Hz. lia.
    + apply Z.leb_gt in E. constructor; [exact IH|].
      eapply Permutation_Forall; [symmetry; apply insert_desc_permutation|].
      constructor; [lia | exact Hy].
Qed.

Lemma sort_by_priority_sorted (l : list Dict) :
  StronglySorted by_priority (AutoReorder.sort_by_priority l).
Proof.
  induction l as [| x l IH]; cbn; [constructor|].
  now apply insert_desc_sorted.
Qed.

(** Entries of one priority keep their place among themselves. *)
Lemma insert_desc_stable (p : Z) (x : Dict) (l : list Dict) :
  List.filter (fun s => (AutoReorder.priority_key s =? p)%Z) (AutoReorder.insert_desc x l)
  = List.filter (fun s => (AutoReorder.priority_key s =? p)%Z) (x :: l).
Proof.
  induction l as [| y l IH]; [reflexivity|].
  cbn [AutoReorder.insert_desc].
  destruct (AutoReorder.priority_key y <=? AutoReorder.priority_key x)%Z eqn:E;
    [reflexivity|].
  apply Z.leb_gt in E.
  cbn [List.filter] in *. rewrite IH.
  destruct (AutoReorder.priority_key x =? p)%Z eqn:Ex;
    destruct (AutoReorder.priority_key y =? p)%Z eqn:Ey; try reflexivity.
  apply Z.eqb_eq in Ex, Ey. lia.
Qed.

Lemma sort_by_priority_stable (p : Z) (l : list Dict) :
  List.filter (fun s => (AutoReorder.priority_key s =? p)%Z) (AutoReorder.sort_by_priority l)
  = List.filter (fun s => (AutoReorder.priority_key s =? p)%Z) l.
Proof.
  induction l as [| x l IH]; [reflexivity|].
  cbn [AutoReorder.sort_by_priority foldr].
  rewrite insert_desc_stable. cbn [List.filter].
  change (foldr AutoReorder.insert_desc [] l) with (AutoReorder.sort_by_priority l).
  now rewrite IH.
Qed.

Lemma sorted_lookup (l : list Dict) :
  StronglySorted by_priority l ->
  forall (i j : nat) (a b : Dict),
    (i < j)%nat -> l !! i = Some a -> l !! j = Some b ->
    (AutoReorder.priority_key b <= AutoReorder.priority_key a)%Z.
Proof.
  induction 1 as [| x l _ IH Hx]; intros i j a b Hij Ha Hb; [discriminate Ha|].
  destruct j as [| j]; [lia|]. cbn in Hb.
  destruct i as [| i]; cbn in Ha.
  - injection Ha as <-. rewrite Forall_forall in Hx.
    apply Hx. eapply list_elem_of_lookup_2, Hb.
  - apply (IH i j); [lia | assumption | assumption].
Qed.

(** The suggestion built for a row carries the stock and the priority of
    that row. *)
Lemma suggestion_of_fields (product : LowStockRow) (calc s : Dict) :
  AutoReorder.suggestion_of product calc = ok s ->
  AutoReorder.priority_key s
  = AutoReorder._calculate_priority (ls_stock_quantity product) (ls_reorder_level product)
  /\ Invariant.current_stock_of s = Some (ls_stock_quantity product)
  /\ Forall (fun k => PyDict.mem k s = true)
       ["product_name"; "current_stock"; "reorder_level"; "suggested_order_quantity"].
Proof.
  unfold AutoReorder.suggestion_of, ok. intros H.
  repeat bind_ok H. injection H as <-.
  split; [reflexivity|]. split; [reflexivity|].
  repeat constructor.
Qed.

(** The output of a batch, in terms of the scan: the sorted list of the
    suggestions of the successful rows. *)
Lemma generate_output (fc : DemandForecaster) (location_id : option Z) :
  exists rows suggestions,
    Forall2 (fun pc s => AutoReorder.suggestion_of (fst pc) (snd pc) = ok s)
      rows suggestions
    /\ fst (AutoReorder.generate_reorder_suggestions lib db now fc location_id)
       = AutoReorder.sort_by_priority suggestions.
Proof.
  unfold AutoReorder.generate_reorder_suggestions.
  destruct (select_low_stock db (Forecaster.truthy_id location_id)) as [e | rows].
  { exists [], []. split; [constructor | reflexivity]. }
  destruct (suggestion_loop_trace lib db now rows fc []) as (suggestions & Hall & Hloop).
  unfold ok in *.
  destruct (AutoReorder.suggestion_loop lib db now rows fc []) as [r fc1].
  cbn [fst] in Hloop. subst r. cbn [app fst].
  eexists _, suggestions. split; [|reflexivity].
  eapply Forall2_impl; [exact Hall|]. cbn. tauto.
Qed.

(** X3. The list returned by [generate_reorder_suggestions] is in
    descending order of priority: no entry has a higher priority than an
    entry before it. *)
Theorem suggestions_sorted_by_priority (fc : DemandForecaster) (location_id : option Z) :
  StronglySorted by_priority
    (fst (AutoReorder.generate_reorder_suggestions lib db now fc location_id)).
Proof.
  destruct (generate_output fc location_id) as (rows & suggestions & _ & ->).
  apply sort_by_priority_sorted.
Qed.

(** X4. The sort of [generate_reorder_suggestions] is stable: for every
    priority, the returned suggestions of that priority are those of the
    scan, in scan order. *)
Theorem suggestions_sort_is_stable (l : list Dict) (p : Z) :
  List.filter (fun s => (AutoReorder.priority_key s =? p)%Z) (AutoReorder.sort_by_priority l)
  = List.filter (fun s => (AutoReorder.priority_key s =? p)%Z) l
  /\ Permutation (AutoReorder.sort_by_priority l) l.
Proof.
  split; [apply sort_by_priority_stable | apply sort_by_priority_permutation].
Qed.

(** X5. In the list returned by [generate_reorder_suggestions] a pair that
    is out of stock (stock zero or negative) never comes after a pair with
    positive stock. *)
Theorem out_of_stock_ranked_first
    (fc : DemandForecaster) (location_id : option Z)
    (i j : nat) (a b : Dict) (stock_a stock_b : Z) :
  let out := fst (AutoReorder.generate_reorder_suggestions lib db now fc location_id) in
  out !! i = Some a -> out !! j = Some b ->
  Invariant.current_stock_of a = Some stock_a ->
  Invariant.current_stock_of b = Some stock_b ->
  (0 < stock_a)%Z -> (stock_b <= 0)%Z ->
  (j < i)%nat.
Proof.
  intros out Ha Hb Hsa Hsb Hpos Hzero. subst out.
  destruct (generate_output fc location_id) as (rows & suggestions & Hall & Hout).
  rewrite Hout in Ha, Hb.
  assert (Hfield : forall s, s ∈ AutoReorder.sort_by_priority suggestions ->
            exists product,
              AutoReorder.priority_key s
              = AutoReorder._calculate_priority (ls_stock_quantity product)
                  (ls_reorder_level product)
              /\ Invariant.current_stock_of s = Some (ls_stock_quantity product)).
  { intros s Hs.
    rewrite (sort_by_priority_permutation suggestions) in Hs.
    apply list_elem_of_lookup in Hs as [k Hk].
    destruct (Forall2_lookup_r _ _ _ _ _ Hall Hk) as (pc & _ & Hpc).
    exists (fst pc). destruct (suggestion_of_fields _ _ _ Hpc) as (? & ? & _). auto. }
  destruct (Hfield a) as (pa & Hka & Hca); [eapply list_elem_of_lookup_2, Ha|].
  destruct (Hfield b) as (pb & Hkb & Hcb); [eapply list_elem_of_lookup_2, Hb|].
  rewrite Hsa in Hca. injection Hca as ->.
  rewrite Hsb in Hcb. injection Hcb as ->.
  assert (Hkb100 : AutoReorder.priority_key b = 100%Z).
  { rewrite Hkb.
    destruct (calculate_priority_cases (ls_stock_quantity pb) (ls_reorder_level pb))
      as [[_ H] | [H _]]; [exact H | lia]. }
  assert (Hka80 : (AutoReorder.priority_key a <= 80)%Z).
  { rewrite Hka.
    destruct (calculate_priority_cases (ls_stock_quantity pa) (ls_reorder_level pa))
      as [[H _] | [_ Hin]]; [lia|].
    cbn in Hin. destruct Hin as [H | [H | [H | []]]]; rewrite <- H;
      apply Z.leb_le; reflexivity. }
  destruct (Nat.lt_trichotomy j i) as [Hlt | [-> | Hgt]]; [exact Hlt | |].
  { exfalso. rewrite Ha in Hb. injection Hb as <-. lia. }
  exfalso.
  pose proof (sorted_lookup _ (sort_by_priority_sorted suggestions) i j a b Hgt Ha Hb).
  lia.
Qed.

(** X6. The formatting loop of [send_low_stock_alert] never fails on the
    output of [generate_reorder_suggestions]: every suggestion has the four
    entries it reads, and it yields one item per suggestion. *)
Theorem low_stock_items_never_fail (fc : DemandForecaster) (location_id : option Z) :
  exists items,
    Api.low_stock_items
      (fst (AutoReorder.generate_reorder_suggestions lib db now fc location_id))
    = ok items
    /\ length items
       = length (fst (AutoReorder.generate_reorder_suggestions lib db now fc location_id)).
Proof.
  destruct (generate_output fc location_id) as (rows & suggestions & Hall & ->).
  assert (Hkeys : Forall (fun s => exists item, Api.low_stock_item s = ok item)
                         (AutoReorder.sort_by_priority suggestions)).
  { eapply Permutation_Forall; [symmetry; apply sort_by_priority_permutation|].
    clear -Hall. induction Hall as [| pc s rows suggestions Hs _ IH]; constructor;
      [|exact IH].
    unfold AutoReorder.suggestion_of, ok in Hs. repeat bind_ok Hs.
    injection Hs as <-. eexists. reflexivity. }
  unfold Api.low_stock_items.
  induction Hkeys as [| s l (item & Hitem) _ (items & Hitems & Hlen)]; cbn.
  - exists []. split; reflexivity.
  - rewrite Hitem. cbn [bind]. rewrite Hitems. cbn [bind].
    exists (item :: items). split; [reflexivity|]. cbn. now rewrite Hlen.
Qed.

End Ranking.


(** ** The model store *)

Section FileNames.

Lemma string_length_app (s t : string) :
  String.length (s ++ t) = (String.length s + String.length t)%nat.
Proof.
  induction s as [| c s IH]; [reflexivity|].
  change (S (String.length (s ++ t)) = S (String.length s + String.length t)).
  now rewrite IH.
Qed.

Lemma string_app_inv_tail (t s1 s2 : string) : s1 ++ t = s2 ++ t -> s1 = s2.
Proof.
  revert s2. induction s1 as [| c s1 IH]; intros [| d s2] H.
  - reflexivity.
  - apply (f_equal String.length) in H.
    change (String.length t = S (String.length (s2 ++ t))) in H.
    rewrite string_length_app in H. lia.
  - apply (f_equal String.length) in H.
    change (S (String.length (s1 ++ t)) = String.length t) in H.
    rewrite string_length_app in H. lia.
  - change (String c (s1 ++ t) = String d (s2 ++ t)) in H.
    injection H as -> H. f_equal. now apply IH.
Qed.

Lemma model_filename_inj (p q : Z) :
  Forecaster.model_filename p = Forecaster.model_filename q -> p = q.
Proof.
  unfold Forecaster.model_filename, Forecaster.model_path. intros H.
  cbn in H. repeat (injection H as H).
  change (pretty p ++ ".joblib" = pretty q ++ ".joblib") in H.
  apply string_app_inv_tail in H. now apply pretty_Z_inj in H.
Qed.

Lemma scaler_filename_inj (p q : Z) :
  Forecaster.scaler_filename p = Forecaster.scaler_filename q -> p = q.
Proof.
  unfold Forecaster.scaler_filename, Forecaster.model_path. intros H.
  cbn in H. repeat (injection H as H).
  change (pretty p ++ ".joblib" = pretty q ++ ".joblib") in H.
  apply string_app_inv_tail in H. now apply pretty_Z_inj in H.
Qed.

Lemma model_scaler_filename_ne (p q : Z) :
  Forecaster.model_filename p <> Forecaster.scaler_filename q.
Proof.
  unfold Forecaster.model_filename, Forecaster.scaler_filename, Forecaster.model_path.
  cbn. intros H. discriminate H.
Qed.

End FileNames.

Section Store.

Context (lib : Library) (db : Session) (now : Timestamp).

Import Num.
Local Open Scope list_scope.

(** What training does to the forecaster: nothing on an error, and on a
    success one model and one scaler written to the registries and to the
    two files of the product. *)
Lemma train_state (self self' : DemandForecaster) (product_id : Z) (d : Dict) :
  Forecaster.train_demand_model lib db now self product_id = (d, self') ->
  (is_error d = true /\ self' = self)
  \/ (is_error d = false
      /\ exists m sc,
           self' = {| models := <[product_id := m]> (models self);
                      scalers := <[product_id := sc]> (scalers self);
                      files := <[Forecaster.scaler_filename product_id := ScalerArtifact sc]>
                                 (<[Forecaster.model_filename product_id := ModelArtifact m]>
                                    (files self)) |}).
Proof.
  unfold Forecaster.train_demand_model. intros H.
  destruct (Forecaster.train_body lib db now self product_id) as [e | r] eqn:Hb.
  { injection H as <- <-. left. split; reflexivity. }
  subst r. unfold Forecaster.train_body, ok in Hb.
  bind_ok Hb.
  destruct (len l <? 30)%Z; [injection Hb as <- <-; left; split; reflexivity|].
  bind_ok Hb.
  destruct (len l0 <? 20)%Z; [injection Hb as <- <-; left; split; reflexivity|].
  destruct (Forecaster.train_test_split l0) as [train test].
  do 4 bind_ok Hb.
  destruct (Forecaster.best_model b) as [m |]; [|discriminate Hb].
  destruct (Forecaster.best_score b); [|discriminate Hb].
  destruct (Forecaster.best_model_name b); [|discriminate Hb].
  injection Hb as <- <-. right. split; [reflexivity|].
  eexists _, _. reflexivity.
Qed.

(** X7. A successful [train_demand_model] leaves the selected model and
    the scaler in the registries and the same two objects in the model
    file and the scaler file of the product. *)
Theorem train_success_persists (self self' : DemandForecaster) (product_id : Z) (d : Dict) :
  Forecaster.train_demand_model lib db now self product_id = (d, self') ->
  is_error d = false ->
  exists m sc,
    models self' !! product_id = Some m
    /\ scalers self' !! product_id = Some sc
    /\ files self' !! Forecaster.model_filename product_id = Some (ModelArtifact m)
    /\ files self' !! Forecaster.scaler_filename product_id = Some (ScalerArtifact sc).
Proof.
  intros H Hd.
  destruct (train_state _ _ _ _ H) as [[He _] | (_ & m & sc & ->)]; [congruence|].
  exists m, sc. cbn. repeat split.
  - apply lookup_insert_eq.
  - apply lookup_insert_eq.
  - rewrite lookup_insert_ne by (intros E; symmetry in E; now apply model_scaler_filename_ne in E).
    apply lookup_insert_eq.
  - apply lookup_insert_eq.
Qed.

(** X8. Training one product leaves every other product alone: its
    registry entries, its model file and its scaler file are what they
    were, whether the training succeeds or not. *)
Theorem train_frames_other_products
    (self self' : DemandForecaster) (product_id other : Z) (d : Dict) :
  Forecaster.train_demand_model lib db now self product_id = (d, self') ->
  other <> product_id ->
  models self' !! other = models self !! other
  /\ scalers self' !! other = scalers self !! other
  /\ files self' !! Forecaster.model_filename other
     = files self !! Forecaster.model_filename other
  /\ files self' !! Forecaster.scaler_filename other
     = files self !! Forecaster.scaler_filename other.
Proof.
  intros H Hne.
  destruct (train_state _ _ _ _ H) as [[_ ->] | (_ & m & sc & ->)]; [tauto|].
  cbn. repeat split.
  - now rewrite lookup_insert_ne by congruence.
  - now rewrite lookup_insert_ne by congruence.
  - rewrite lookup_insert_ne
      by (intros E; symmetry in E; now apply model_scaler_filename_ne in E).
    rewrite lookup_insert_ne; [reflexivity|].
    intros E. apply model_filename_inj in E. congruence.
  - rewrite lookup_insert_ne.
    + rewrite lookup_insert_ne; [reflexivity | apply model_scaler_filename_ne].
    + intros E. apply scaler_filename_inj in E. congruence.
Qed.

End Store.


Section StoreInvariant.

Context (lib : Library) (db : Session) (now : Timestamp).

Import Num.
Local Open Scope list_scope.

(** A forecast reads the forecaster only through the model and the scaler
    of its product. *)
Lemma predict_day_same_model (st1 st2 : DemandForecaster) (product_id : Z)
    (quantities : list Q) (date : Timestamp) :
  Invariant.same_model product_id st1 st2 ->
  Forecaster.predict_day lib st1 product_id quantities date
  = Forecaster.predict_day lib st2 product_id quantities date.
Proof.
  intros [Hm Hs]. unfold Forecaster.predict_day. now rewrite Hm, Hs.
Qed.

Lemma forecast_same_model (st1 st2 : DemandForecaster) (product_id days_ahead : Z) :
  Invariant.same_model product_id st1 st2 ->
  Forecaster.forecast lib db now st1 product_id days_ahead
  = Forecaster.forecast lib db now st2 product_id days_ahead.
Proof.
  intros Hsame. unfold Forecaster.forecast.
  destruct (Forecaster.get_sales_data db now (Some product_id) 90) as [e | rows];
    [reflexivity|].
  destruct rows as [| r0 rows]; [reflexivity|]. cbn [bind].
  destruct (Forecaster.date_range _ days_ahead) as [e | dates]; [reflexivity|].
  cbn [bind].
  assert (Hloop : forall acc,
            Forecaster.forecast_loop lib st1 product_id (r0 :: rows) dates acc
            = Forecaster.forecast_loop lib st2 product_id (r0 :: rows) dates acc).
  { induction dates as [| date rest IH]; intros acc; [reflexivity|].
    cbn [Forecaster.forecast_loop].
    rewrite (predict_day_same_model st1 st2) by exact Hsame.
    destruct (Forecaster.predict_day lib st2 product_id _ date); [reflexivity|].
    cbn [bind]. apply IH. }
  now rewrite Hloop.
Qed.

(** What [load_artifacts] does on paired files. *)
Lemma load_artifacts_paired (self : DemandForecaster) (product_id : Z) (a : Artifact) :
  Invariant.files_paired (files self) ->
  files self !! Forecaster.model_filename product_id = Some a ->
  exists m sc,
    files self !! Forecaster.model_filename product_id = Some (ModelArtifact m)
    /\ files self !! Forecaster.scaler_filename product_id = Some (ScalerArtifact sc)
    /\ Forecaster.load_artifacts self product_id
       = (ok tt, {| models := <[product_id := m]> (models self);
                    scalers := <[product_id := sc]> (scalers self);
                    files := files self |}).
Proof.
  intros Hp Ha. destruct (Hp _ _ Ha) as [[m ->] [sc Hsc]].
  exists m, sc. split; [exact Ha|]. split; [exact Hsc|].
  unfold Forecaster.load_artifacts. now rewrite Ha, Hsc.
Qed.

Lemma train_keeps_consistency (self self' : DemandForecaster) (product_id : Z) (d : Dict) :
  Invariant.consistent self ->
  Forecaster.train_demand_model lib db now self product_id = (d, self') ->
  Invariant.consistent self'.
Proof.
  intros [Hreg Hfiles] H.
  destruct (train_state _ _ _ _ _ _ _ H) as [[_ ->] | (_ & m & sc & ->)];
    [now split|].
  split; cbn.
  - intros p. destruct (decide (p = product_id)) as [-> | Hne].
    + rewrite !lookup_insert_eq. eauto.
    + rewrite !lookup_insert_ne by congruence. apply Hreg.
  - intros p a. destruct (decide (p = product_id)) as [-> | Hne].
    + rewrite lookup_insert_ne
        by (intros E; symmetry in E; now apply model_scaler_filename_ne in E).
      rewrite !lookup_insert_eq. intros [= <-]. eauto.
    + rewrite lookup_insert_ne
        by (intros E; symmetry in E; now apply model_scaler_filename_ne in E).
      rewrite lookup_insert_ne
        by (intros E; apply model_filename_inj in E; congruence).
      intros Ha. destruct (Hfiles _ _ Ha) as [Hm [sc' Hsc]].
      split; [exact Hm|]. exists sc'.
      rewrite lookup_insert_ne
        by (intros E; apply scaler_filename_inj in E; congruence).
      rewrite lookup_insert_ne by apply model_scaler_filename_ne.
      exact Hsc.
Qed.


Lemma new_forecaster_consistent (fs : gmap string Artifact) :
  Invariant.files_paired fs -> Invariant.consistent (Api.new_forecaster fs).
Proof.
  intros Hp. split; [|exact Hp].
  intros p. cbn. rewrite lookup_empty. intros [x Hx]. discriminate Hx.
Qed.

Lemma files_paired_empty : Invariant.files_paired ∅.
Proof.
  intros p a H. rewrite lookup_empty in H. discriminate H.
Qed.


(** X10. In a consistent forecaster a stored model is loaded, never
    retrained: when the product has no model in memory but has a model
    file, [predict_demand] registers the stored model and scaler, leaves
    the files as they are, and answers with their forecast. *)
Theorem predict_demand_loads_stored_model
    (self : DemandForecaster) (product_id days_ahead : Z) (a : Artifact) :
  Invariant.consistent self ->
  models self !! product_id = None ->
  files self !! Forecaster.model_filename product_id = Some a ->
  exists m sc,
    a = ModelArtifact m
    /\ files self !! Forecaster.scaler_filename product_id = Some (ScalerArtifact sc)
    /\ let loaded := {| models := <[product_id := m]> (models self);
                        scalers := <[product_id := sc]> (scalers self);
                        files := files self |} in
       Forecaster.predict_demand lib db now self product_id days_ahead
       = (catch_error (Forecaster.forecast lib db now loaded product_id days_ahead),
          loaded).
Proof.
  intros Hc Hm Ha.
  destruct (load_artifacts_paired self product_id a (proj2 Hc) Ha)
    as (m & sc & Ha' & Hsc & Hload).
  exists m, sc. split; [congruence|]. split; [exact Hsc|]. cbn zeta.
  unfold Forecaster.predict_demand. rewrite Hm, Ha, Hload. reflexivity.
Qed.

(** X11. Round trip through the model files: after a successful training,
    a new forecaster created over the files the training left behind
    answers [predict_demand] exactly as the training forecaster does, and
    leaves the files as they are. *)
Theorem trained_model_survives_in_files
    (self trained : DemandForecaster) (product_id days_ahead : Z) (d : Dict) :
  Forecaster.train_demand_model lib db now self product_id = (d, trained) ->
  is_error d = false ->
  Api.get_demand_forecast lib db now (files trained) product_id days_ahead
  = (fst (Forecaster.predict_demand lib db now trained product_id days_ahead),
     files trained).
Proof.
  intros H Hd.
  destruct (train_state _ _ _ _ _ _ _ H) as [[He _] | (_ & m & sc & ->)]; [congruence|].
  unfold Api.get_demand_forecast, Forecaster.predict_demand, Api.new_forecaster.
  cbn [models scalers files].
  rewrite lookup_empty, lookup_insert_eq.
  rewrite lookup_insert_ne
    by (intros E; symmetry in E; now apply model_scaler_filename_ne in E).
  rewrite lookup_insert_eq.
  unfold Forecaster.load_artifacts. cbn [models scalers files].
  rewrite lookup_insert_ne
    by (intros E; symmetry in E; now apply model_scaler_filename_ne in E).
  rewrite !lookup_insert_eq. cbn [fst].
  f_equal. f_equal. apply forecast_same_model. split; cbn.
  - now rewrite !lookup_insert_eq.
  - now rewrite !lookup_insert_eq.
Qed.

(** X12. Predicting again costs nothing and changes nothing: after a
    successful [predict_demand] the same call on the returned forecaster
    gives the same answer and returns that forecaster unchanged. *)
Theorem predict_demand_repeatable
    (self self' : DemandForecaster) (product_id days_ahead : Z) (d : Dict) :
  Forecaster.predict_demand lib db now self product_id days_ahead = (d, self') ->
  is_error d = false ->
  Forecaster.predict_demand lib db now self' product_id days_ahead = (d, self').
Proof.
  intros H Hd.
  pose proof (predict_demand_success _ _ _ _ _ _ _ _ H Hd) as Hf.
  assert (Hreg : is_Some (models self' !! product_id)).
  { revert H. unfold Forecaster.predict_demand.
    destruct (models self !! product_id) eqn:Hm; [intros [= _ <-]; rewrite Hm; eauto|].
    destruct (files self !! Forecaster.model_filename product_id) as [a |].
    - unfold Forecaster.load_artifacts.
      destruct (files self !! Forecaster.model_filename product_id) as [[m | sc] |].
      + destruct (files self !! Forecaster.scaler_filename product_id) as [[m' | sc] |];
          intros [= <- <-]; try discriminate Hd.
        cbn. rewrite lookup_insert_eq. eauto.
      + intros [= <- <-]. discriminate Hd.
      + intros [= <- <-]. discriminate Hd.
    - destruct (Forecaster.train_demand_model lib db now self product_id)
        as [train_result self1] eqn:Ht.
      destruct (is_error train_result) eqn:He; intros [= <- <-]; [congruence|].
      destruct (train_state _ _ _ _ _ _ _ Ht) as [[He' _] | (_ & m & sc & ->)];
        [congruence|].
      cbn. rewrite lookup_insert_eq. eauto. }
  unfold Forecaster.predict_demand. destruct Hreg as [m ->].
  now rewrite Hf.
Qed.

(** X13. [predict_demand] hands on the training error: for a product with
    no model in memory, no model file and fewer than 30 rows of history it
    answers the insufficient-data error and changes nothing. *)
Theorem predict_demand_insufficient_history
    (self : DemandForecaster) (product_id days_ahead : Z) (rows : list SalesRow) :
  models self !! product_id = None ->
  files self !! Forecaster.model_filename product_id = None ->
  Forecaster.get_sales_data db now (Some product_id) 365 = ok rows ->
  (len rows < 30)%Z ->
  Forecaster.predict_demand lib db now self product_id days_ahead
  = (error_dict "Insufficient historical data", self).
Proof.
  intros Hm Hf Hrows Hlen.
  unfold Forecaster.predict_demand. rewrite Hm, Hf.
  unfold Forecaster.train_demand_model, Forecaster.train_body.
  rewrite Hrows. cbn [bind ok].
  apply Z.ltb_lt in Hlen. rewrite Hlen. reflexivity.
Qed.

(** X14. With no usable forecast the reorder point is the fallback's: for a
    product with no model in memory, no model file and fewer than 30 rows
    of history, [calculate_reorder_point] answers what
    [_simple_reorder_calculation] answers, whatever the service level. *)
Theorem reorder_point_falls_back_on_short_history
    (self : DemandForecaster) (product_id location_id : Z) (service_level : Q)
    (rows : list SalesRow) :
  models self !! product_id = None ->
  files self !! Forecaster.model_filename product_id = None ->
  Forecaster.get_sales_data db now (Some product_id) 365 = ok rows ->
  (len rows < 30)%Z ->
  AutoReorder.calculate_reorder_point lib db now self product_id location_id service_level
  = (AutoReorder._simple_reorder_calculation lib db now product_id location_id, self).
Proof.
  intros Hm Hf Hrows Hlen.
  unfold AutoReorder.calculate_reorder_point, Forecaster.predict_demand.
  rewrite Hm, Hf.
  unfold Forecaster.train_demand_model, Forecaster.train_body.
  rewrite Hrows. cbn [bind ok].
  apply Z.ltb_lt in Hlen. rewrite Hlen. reflexivity.
Qed.

End StoreInvariant.


Section BulkTraining.

Context (lib : Library) (db : Session) (now : Timestamp).

Import Num.
Local Open Scope list_scope.

(** Training never removes a file. *)
Lemma train_keeps_files (self self' : DemandForecaster) (product_id : Z) (d : Dict)
    (name : string) :
  Forecaster.train_demand_model lib db now self product_id = (d, self') ->
  is_Some (files self !! name) -> is_Some (files self' !! name).
Proof.
  intros H Hn.
  destruct (train_state _ _ _ _ _ _ _ H) as [[_ ->] | (_ & m & sc & ->)];
    [exact Hn|].
  cbn. rewrite !lookup_insert_is_Some'. tauto.
Qed.

Lemma train_all_loop_results (product_ids : list Z) :
  forall (fc fc' : DemandForecaster) (acc results : list (Z * Dict)),
    Api.train_all_loop lib db now product_ids fc acc = (results, fc') ->
    exists new,
      results = acc ++ new
      /\ map fst new = product_ids
      /\ (forall name, is_Some (files fc !! name) -> is_Some (files fc' !! name))
      /\ Forall (fun pr =>
                   is_error (snd pr) = false ->
                   is_Some (files fc' !! Forecaster.model_filename (fst pr))
                   /\ is_Some (files fc' !! Forecaster.scaler_filename (fst pr)))
                new.
Proof.
  induction product_ids as [| product_id rest IH]; intros fc fc' acc results H;
    cbn in H.
  - injection H as <- <-. exists []. rewrite app_nil_r. repeat split; auto.
  - destruct (Forecaster.train_demand_model lib db now fc product_id)
      as [result fc1] eqn:Ht.
    destruct (IH _ _ _ _ H) as (new & -> & Hids & Hmono & Hall).
    exists ((product_id, result) :: new). split; [now rewrite <- app_assoc|].
    split; [cbn; now rewrite Hids|].
    split.
    + intros name Hn. apply Hmono. eapply train_keeps_files; eassumption.
    + constructor; [|exact Hall]. cbn [fst snd]. intros Hd.
      destruct (train_success_persists _ _ _ _ _ _ _ Ht Hd) as (m & sc & _ & _ & Hm & Hs).
      split; apply Hmono; eauto.
Qed.

(** X15. Bulk training handles every product: the loop of
    [train_all_models] yields one result per product, in the order given,
    errors included; it removes no file, and when it ends every product
    whose result is a success has its model file and its scaler file. *)
Theorem bulk_training_covers_every_product
    (product_ids : list Z) (fc fc' : DemandForecaster) (results : list (Z * Dict)) :
  Api.train_all_loop lib db now product_ids fc [] = (results, fc') ->
  map fst results = product_ids
  /\ (forall name, is_Some (files fc !! name) -> is_Some (files fc' !! name))
  /\ Forall (fun pr =>
               is_error (snd pr) = false ->
               is_Some (files fc' !! Forecaster.model_filename (fst pr))
               /\ is_Some (files fc' !! Forecaster.scaler_filename (fst pr)))
            results.
Proof.
  intros H.
  destruct (train_all_loop_results _ _ _ _ _ H) as (new & -> & Hids & Hmono & Hall).
  rewrite app_nil_l. auto.
Qed.

(** X16. A successful training comes from at least 30 sales rows and at
    least 20 usable rows, split in order and without loss: the training
    rows followed by the held-out rows are the rows of the training table,
    and the two reported sample counts add up to their number. *)
Theorem train_reports_split_sizes
    (self self' : DemandForecaster) (product_id : Z) (d : Dict) :
  Forecaster.train_demand_model lib db now self product_id = (d, self') ->
  is_error d = false ->
  exists sales table n_train n_test,
    Forecaster.get_sales_data db now (Some product_id) 365 = ok sales
    /\ training_table lib product_id sales = ok table
    /\ (30 <= len sales)%Z
    /\ (20 <= len table)%Z
    /\ PyDict.get d "training_samples" = Some (VInt n_train)
    /\ PyDict.get d "test_samples" = Some (VInt n_test)
    /\ (n_train + n_test = len table)%Z
    /\ (0 < n_test)%Z
    /\ fst (Forecaster.train_test_split table) ++ snd (Forecaster.train_test_split table)
       = table.
Proof.
  unfold Forecaster.train_demand_model. intros H Hd.
  destruct (Forecaster.train_body lib db now self product_id) as [e | r] eqn:Hb.
  { injection H as <- _. discriminate Hd. }
  subst r. unfold Forecaster.train_body, ok in Hb.
  bind_ok Hb.
  destruct (len l <? 30)%Z eqn:H30; [injection Hb as <- _; discriminate Hd|].
  bind_ok Hb.
  destruct (len l0 <? 20)%Z eqn:H20; [injection Hb as <- _; discriminate Hd|].
  apply Z.ltb_ge in H30, H20.
  destruct (Forecaster.train_test_split l0) as [train test] eqn:Hsplit.
  do 4 bind_ok Hb.
  destruct (Forecaster.best_model b) as [m |]; [|discriminate Hb].
  destruct (Forecaster.best_score b); [|discriminate Hb].
  destruct (Forecaster.best_model_name b); [|discriminate Hb].
  injection Hb as <- _.
  exists l, l0, (len (map fst train)), (len (map fst test)).
  split; [reflexivity|]. split; [exact E0|].
  split; [exact H30|]. split; [exact H20|].
  split; [reflexivity|]. split; [reflexivity|].
  unfold Forecaster.train_test_split in Hsplit. injection Hsplit as <- <-.
  cbn [fst snd].
  split; [|split; [|apply take_drop]];
    unfold len in *; rewrite !length_map, ?length_take, ?length_drop;
    set (n := length l0) in *;
    assert (Hk : (4 <= (Z.of_nat n + 4) / 5 <= Z.of_nat n)%Z)
      by (split; [apply Z.div_le_lower_bound; lia | apply Z.div_le_upper_bound; lia]);
    lia.
Qed.

End BulkTraining.


Section ForecastShape.

Context (lib : Library) (db : Session) (now : Timestamp).

Import Num.
Local Open Scope Q_scope.
Local Open Scope list_scope.








End ForecastShape.


Section FeatureRow.

Context (lib : Library).

Import Num.
Local Open Scope list_scope.

(** The feature row with its branches exposed and every computed value
    replaced by a variable, so that only keys and shape are left. *)
Ltac expose_feature_row :=
  unfold Forecaster.feature_row, Forecaster.add_rolling_statistics,
    Forecaster.add_rolling, Forecaster.add_lag_features, Forecaster.set_if,
    Forecaster.calendar_features;
  change (Z.of_nat 7) with 7%Z; change (Z.of_nat 14) with 14%Z;
  change (Z.of_nat 30) with 30%Z;
  repeat match goal with
         | |- context [VFloat ?q] => assert_fails (is_var q); generalize q; intro
         | |- context [VInt ?z] =>
             assert_fails (is_var z); assert_fails (constr_eq z 0%Z);
             generalize z; intro
         end.

(** X18. The feature vector handed to the model always has 18 entries,
    whatever the length of the history: a lag or rolling feature that
    cannot be computed is there as 0. *)
Theorem feature_vector_has_18_entries
    (product_id : Z) (quantities : list Q) (date : Timestamp) :
  exists X,
    Forecaster.feature_vector (Forecaster.feature_row lib product_id quantities date)
    = ok X
    /\ length X = 18%nat.
Proof.
  expose_feature_row.
  destruct (1 <=? len quantities)%Z, (7 <=? len quantities)%Z,
    (14 <=? len quantities)%Z, (30 <=? len quantities)%Z;
    (eexists; split; [vm_compute; reflexivity | reflexivity]).
Qed.

(** X19. A feature that needs more history than there is is set to 0:
    with fewer than [n] recent quantities, for [n] among 7, 14 and 30, the
    entries [sales_lag_n], [sales_mean_n] and [sales_std_n] of the feature
    row are 0. *)
Theorem missing_features_are_zero
    (product_id : Z) (quantities : list Q) (date : Timestamp) :
  let row := Forecaster.feature_row lib product_id quantities date in
  ((len quantities < 7)%Z ->
   PyDict.get row "sales_lag_7" = Some (VInt 0)
   /\ PyDict.get row "sales_mean_7" = Some (VInt 0)
   /\ PyDict.get row "sales_std_7" = Some (VInt 0))
  /\ ((len quantities < 14)%Z ->
      PyDict.get row "sales_lag_14" = Some (VInt 0)
      /\ PyDict.get row "sales_mean_14" = Some (VInt 0)
      /\ PyDict.get row "sales_std_14" = Some (VInt 0))
  /\ ((len quantities < 30)%Z ->
      PyDict.get row "sales_lag_30" = Some (VInt 0)
      /\ PyDict.get row "sales_mean_30" = Some (VInt 0)
      /\ PyDict.get row "sales_std_30" = Some (VInt 0)).
Proof.
  cbn zeta. expose_feature_row.
  destruct (1 <=? len quantities)%Z;
    destruct (7 <=? len quantities)%Z eqn:H7;
    destruct (14 <=? len quantities)%Z eqn:H14;
    destruct (30 <=? len quantities)%Z eqn:H30;
    rewrite ?Z.leb_le, ?Z.leb_gt in *;
    (split; [|split]); intros Hlt; try lia; repeat split; vm_compute; reflexivity.
Qed.

(** X20. The order of the features depends on the history. With 30 or more
    recent quantities, or with fewer than 7, the ten lag and rolling
    features follow the calendar features in the order lags 1, 7, 14, 30,
    then mean and deviation of the windows 7, 14, 30; with 7 to 13
    quantities [sales_mean_7] and [sales_std_7] come before
    [sales_lag_14]. *)
Theorem feature_order_depends_on_history
    (product_id : Z) (quantities : list Q) (date : Timestamp) :
  let keys := drop 10 (PyDict.keys (Forecaster.feature_row lib product_id quantities date)) in
  ((30 <= len quantities)%Z \/ (len quantities < 7)%Z -> keys = Forecaster.lag_keys)
  /\ ((7 <= len quantities < 14)%Z ->
      keys = ["sales_lag_1"; "sales_lag_7"; "sales_mean_7"; "sales_std_7";
              "sales_lag_14"; "sales_lag_30"; "sales_mean_14"; "sales_std_14";
              "sales_mean_30"; "sales_std_30"]).
Proof.
  cbn zeta. expose_feature_row.
  destruct (1 <=? len quantities)%Z eqn:H1;
    destruct (7 <=? len quantities)%Z eqn:H7;
    destruct (14 <=? len quantities)%Z eqn:H14;
    destruct (30 <=? len quantities)%Z eqn:H30;
    rewrite ?Z.leb_le, ?Z.leb_gt in *;
    split; intros Hlen; try lia; vm_compute; reflexivity.
Qed.

End FeatureRow.


(** ** The price scan and its errors *)

Section ScanFacts.

Import Num.
Local Open Scope Q_scope.
Local Open Scope list_scope.

(** The index returned by the scan points to a largest entry. *)
Lemma argmax_from_max (l : list Q) :
  forall (pre : list Q) (best_i : nat) (best : Q),
    (best_i < length pre)%nat ->
    nth best_i pre 0 = best ->
    (forall j, (j < length pre)%nat -> nth j pre 0 <= best) ->
    let r := PriceOptimizer.argmax_from l (length pre) best_i best in
    (r < length (pre ++ l))%nat
    /\ forall j, (j < length (pre ++ l))%nat -> nth j (pre ++ l) 0 <= nth r (pre ++ l) 0.
Proof.
  induction l as [| x l IH]; intros pre best_i best Hi Hb Hle; cbn.
  - rewrite app_nil_r. split; [exact Hi|].
    intros j Hj. rewrite Hb. now apply Hle.
  - assert (Hlen : length (pre ++ [x]) = S (length pre))
      by (rewrite length_app; cbn; lia).
    replace (pre ++ x :: l) with ((pre ++ [x]) ++ l) by now rewrite <- app_assoc.
    destruct (Qltb best x) eqn:C.
    + apply Qltb_true in C.
      specialize (IH (pre ++ [x]) (length pre) x).
      rewrite Hlen in IH. apply IH.
      * lia.
      * now rewrite app_nth2, Nat.sub_diag by lia.
      * intros j Hj. destruct (Nat.eq_dec j (length pre)) as [-> | Hne].
        -- rewrite app_nth2, Nat.sub_diag by lia. cbn. lra.
        -- rewrite app_nth1 by lia. specialize (Hle j ltac:(lia)). lra.
    + apply Qltb_false in C.
      specialize (IH (pre ++ [x]) best_i best).
      rewrite Hlen in IH. apply IH.
      * lia.
      * now rewrite app_nth1 by lia.
      * intros j Hj. destruct (Nat.eq_dec j (length pre)) as [-> | Hne].
        -- now rewrite app_nth2, Nat.sub_diag by lia.
        -- rewrite app_nth1 by lia. apply Hle. lia.
Qed.

Lemma argmax_max (l : list Q) :
  l <> [] ->
  (PriceOptimizer.argmax l < length l)%nat
  /\ forall j, (j < length l)%nat -> nth j l 0 <= nth (PriceOptimizer.argmax l) l 0.
Proof.
  destruct l as [| x l]; [congruence | intros _].
  apply (argmax_from_max l [x] 0%nat x); cbn; try lia; try reflexivity.
  intros j Hj. assert (j = 0)%nat as -> by lia. cbn. lra.
Qed.

(** Every candidate of the scan is a point of the segment between the two
    ends. *)
Lemma linspace_In (start stop x : Q) (num : nat) :
  In x (PriceOptimizer.linspace start stop (S (S num))) ->
  exists i : Z,
    (0 <= i <= Z.of_nat (S num))%Z
    /\ x = start + inject_Z i * ((stop - start) / inject_Z (Z.of_nat (S (S num)) - 1)).
Proof.
  unfold PriceOptimizer.linspace. intros H.
  apply in_map_iff in H as (i & <- & Hi).
  apply list_elem_of_In, elem_of_seqZ in Hi.
  exists i. split; [lia | reflexivity].
Qed.

End ScanFacts.

Section PriceExtras.

Context (lib : Library) (db : Session) (now : Timestamp).

Import Num.
Local Open Scope Q_scope.
Local Open Scope list_scope.

Lemma scan_price_is_best_candidate (cost base_demand current_price elasticity : Q) :
  let profit := PriceOptimizer.profit_function lib cost base_demand current_price
                  elasticity in
  let optimal := PriceOptimizer.scan_optimal_price lib cost base_demand current_price
                   elasticity in
  In optimal (PriceOptimizer.price_range cost current_price)
  /\ forall p, In p (PriceOptimizer.price_range cost current_price) ->
               profit p <= profit optimal.
Proof.
  intros profit optimal. subst optimal. unfold PriceOptimizer.scan_optimal_price.
  fold profit.
  set (range := PriceOptimizer.price_range cost current_price).
  assert (Hlen : length range = 100%nat) by apply linspace_length.
  assert (Hne : map profit range <> []).
  { intros E. apply (f_equal (@length Q)) in E. rewrite length_map, Hlen in E.
    discriminate E. }
  destruct (argmax_max (map profit range) Hne) as [Hk Hmax].
  rewrite length_map in Hk, Hmax.
  set (k := PriceOptimizer.argmax (map profit range)) in *.
  assert (Hnth : forall j, (j < length range)%nat ->
                           nth j (map profit range) 0 = profit (nth j range 0)).
  { intros j Hj. rewrite (nth_indep _ 0 (profit 0)) by now rewrite length_map.
    apply map_nth. }
  split; [now apply nth_In|].
  intros p Hp. destruct (In_nth _ _ 0 Hp) as (j & Hj & <-).
  rewrite <- !Hnth by assumption. now apply Hmax.
Qed.

(** X21. The price picked by the scan of [optimize_price] is one of the
    100 candidates, and no candidate has a larger profit. *)
Theorem scan_price_maximises_profit (cost base_demand current_price elasticity : Q) :
  let profit := PriceOptimizer.profit_function lib cost base_demand current_price
                  elasticity in
  let optimal := PriceOptimizer.scan_optimal_price lib cost base_demand current_price
                   elasticity in
  In optimal (PriceOptimizer.price_range cost current_price)
  /\ length (PriceOptimizer.price_range cost current_price) = 100%nat
  /\ forall p, In p (PriceOptimizer.price_range cost current_price) ->
               profit p <= profit optimal.
Proof.
  intros profit optimal.
  destruct (scan_price_is_best_candidate cost base_demand current_price elasticity)
    as [Hin Hmax].
  split; [exact Hin|]. split; [apply linspace_length | exact Hmax].
Qed.

(** X22. The price picked by the scan lies between the two ends of the
    scanned range, 1.1 times the cost and twice the current price,
    whichever of the two is the smaller. *)
Theorem scan_price_within_range (cost base_demand current_price elasticity : Q) :
  let optimal := PriceOptimizer.scan_optimal_price lib cost base_demand current_price
                   elasticity in
  (cost * (11 # 10) <= current_price * 2 ->
   cost * (11 # 10) <= optimal <= current_price * 2)
  /\ (current_price * 2 <= cost * (11 # 10) ->
      current_price * 2 <= optimal <= cost * (11 # 10)).
Proof.
  intros optimal.
  destruct (scan_price_is_best_candidate cost base_demand current_price elasticity)
    as [Hin _].
  fold optimal in Hin. unfold PriceOptimizer.price_range in Hin.
  apply linspace_In in Hin as (i & Hi & Hx).
  change (inject_Z (Z.of_nat 100 - 1)) with 99 in Hx.
  change (Z.of_nat 99) with 99%Z in Hi.
  assert (H0 : 0 <= inject_Z i) by (change 0 with (inject_Z 0); rewrite <- Zle_Qle; lia).
  assert (H99 : inject_Z i <= 99) by (change 99 with (inject_Z 99); rewrite <- Zle_Qle; lia).
  set (a := cost * (11 # 10)) in *. set (b := current_price * 2) in *.
  assert (E : 99 * optimal == 99 * a + inject_Z i * (b - a)) by (rewrite Hx; field).
  split; intros Hab.
  - assert (Hlo : 0 <= inject_Z i * (b - a)) by (apply Qmult_le_0_compat; lra).
    assert (Hhi : inject_Z i * (b - a) <= 99 * (b - a))
      by (apply Qmult_le_compat_r; lra).
    set (u := inject_Z i * (b - a)) in *. clearbody u. lra.
  - assert (Hlo : 0 <= inject_Z i * (a - b)) by (apply Qmult_le_0_compat; lra).
    assert (Hhi : inject_Z i * (a - b) <= 99 * (a - b))
      by (apply Qmult_le_compat_r; lra).
    assert (E' : 99 * optimal == 99 * a - inject_Z i * (a - b)) by (rewrite E; ring).
    set (u := inject_Z i * (a - b)) in *. clearbody u. lra.
Qed.

End PriceExtras.

Section PriceErrors.

Context (lib : Library) (db : Session) (now : Timestamp).

Import Num.
Local Open Scope Q_scope.
Local Open Scope list_scope.

Lemma true_div_by_zero (a b : Q) : b == 0 -> true_div a b = raise "division by zero".
Proof.
  intros H. unfold true_div. apply Qeq_bool_iff in H. now rewrite H.
Qed.

(** X23. A target margin of 1 is never answered: [optimize_price] returns
    an error dictionary, because the margin-target price divides the cost
    by [1 - target_margin]. *)
Theorem optimize_price_target_margin_one
    (product_id : Z) (current_cost target_margin : Q) :
  target_margin == 1 ->
  is_error (PriceOptimizer.optimize_price lib db now product_id current_cost target_margin)
  = true.
Proof.
  intros Htm. unfold PriceOptimizer.optimize_price, PriceOptimizer.optimize_body.
  destruct (select_product db product_id) as [e | [product |]]; try reflexivity.
  cbn [bind].
  destruct (PriceOptimizer.float_of_option (p_price product)) as [e | price];
    [reflexivity | cbn [bind]].
  match goal with
  | |- is_error (catch_error (bind ?m _)) = true =>
      destruct m as [e | elasticity]; [reflexivity | cbn [bind]]
  end.
  destruct (select_avg_daily_sales db product_id None (now - Calendar.timedelta 30)%Z)
    as [e | avg]; [reflexivity | cbn [bind]].
  destruct (PriceOptimizer.profit_function_float lib _ _ _ _ _) as [e | current_profit];
    [reflexivity | cbn [bind]].
  rewrite true_div_by_zero by (rewrite Htm; reflexivity).
  reflexivity.
Qed.

(** X24. A product whose stored price is NULL or zero is never answered:
    [optimize_price] returns an error dictionary. *)
Theorem optimize_price_needs_a_price
    (product_id : Z) (current_cost target_margin : Q) (product : ProductRow) :
  select_product db product_id = ok (Some product) ->
  (p_price product = None \/ exists price, p_price product = Some price /\ price == 0) ->
  is_error (PriceOptimizer.optimize_price lib db now product_id current_cost target_margin)
  = true.
Proof.
  intros Hprod Hprice.
  unfold PriceOptimizer.optimize_price, PriceOptimizer.optimize_body.
  rewrite Hprod. cbn [bind ok].
  destruct Hprice as [-> | (price & -> & Hzero)]; [reflexivity|].
  cbn [PriceOptimizer.float_of_option bind ok].
  match goal with
  | |- is_error (catch_error (bind ?m _)) = true =>
      destruct m as [e | elasticity]; [reflexivity | cbn [bind]]
  end.
  destruct (select_avg_daily_sales db product_id None (now - Calendar.timedelta 30)%Z)
    as [e | avg]; [reflexivity | cbn [bind]].
  destruct (PriceOptimizer.profit_function_float lib _ _ _ _ _) as [e | current_profit];
    [reflexivity | cbn [bind]].
  destruct (true_div _ (1 - target_margin)) as [e | target_price];
    [reflexivity | cbn [bind]].
  destruct (PriceOptimizer.profit_function_float lib _ _ _ _ _) as [e | target_profit];
    [reflexivity | cbn [bind]].
  rewrite true_div_by_zero by exact Hzero.
  reflexivity.
Qed.

(** X25. When the elasticity cannot be estimated, [optimize_price] goes on
    with the default: a successful result then reports a price elasticity
    of -1. *)
Theorem optimize_price_default_elasticity
    (product_id : Z) (current_cost target_margin : Q) (d : Dict) :
  is_error (PriceOptimizer.get_price_elasticity lib db now product_id) = true ->
  PriceOptimizer.optimize_price lib db now product_id current_cost target_margin = d ->
  is_error d = false ->
  PyDict.get d "price_elasticity" = Some (VFloat (py_round (- 1) 3)).
Proof.
  intros He H Hd. subst d.
  unfold PriceOptimizer.optimize_price, PriceOptimizer.optimize_body in *.
  destruct (select_product db product_id) as [e | [product |]];
    try discriminate Hd.
  cbn [bind] in *.
  destruct (PriceOptimizer.float_of_option (p_price product)) as [e | price];
    [discriminate Hd | cbn [bind] in *].
  rewrite He in *. cbn [bind ok] in *.
  repeat match type of Hd with
         | is_error (catch_error (bind ?m _)) = false =>
             destruct m; [discriminate Hd | cbn [bind] in Hd |- *]
         end.
  reflexivity.
Qed.

(** X26. [get_price_elasticity] succeeds only on enough data: a successful
    result comes from at least 10 price observations that fall into at
    least 3 price buckets, and it reports the number of buckets and the
    fitted slope rounded to three decimals. *)
Theorem elasticity_needs_enough_data (product_id : Z) (d : Dict) :
  PriceOptimizer.get_price_elasticity lib db now product_id = d ->
  is_error d = false ->
  exists rows buckets slope,
    select_price_history db product_id (now - Calendar.timedelta 180)%Z = ok rows
    /\ (10 <= len rows)%Z
    /\ price_buckets lib rows = ok buckets
    /\ (3 <= len buckets)%Z
    /\ PyDict.get d "data_points" = Some (VInt (len buckets))
    /\ PyDict.get d "price_elasticity" = Some (VFloat (py_round slope 3))
    /\ PyDict.get d "interpretation"
       = Some (VStr (PriceOptimizer._interpret_elasticity slope)).
Proof.
  intros H Hd. subst d.
  unfold PriceOptimizer.get_price_elasticity, PriceOptimizer.elasticity_body in *.
  destruct (select_price_history db product_id (now - Calendar.timedelta 180)%Z)
    as [e | rows]; [discriminate Hd | cbn [bind] in *].
  destruct (len rows <? 10)%Z eqn:H10; [discriminate Hd|].
  destruct (price_buckets lib rows) as [e | buckets] eqn:Hb;
    [discriminate Hd | cbn [bind] in *].
  destruct (len buckets <? 3)%Z eqn:H3; [discriminate Hd|].
  destruct (fit_slope lib _ _) as [e | slope]; [discriminate Hd | cbn [bind] in *].
  apply Z.ltb_ge in H10, H3.
  exists rows, buckets, slope.
  split; [reflexivity|]. split; [exact H10|]. split; [exact Hb|].
  split; [exact H3|]. repeat split.
Qed.

(** X27. The fallback never orders less than its reorder point: when the
    average of the recent daily sales is not negative, a successful
    [_simple_reorder_calculation] reports a reorder point between 0 and
    the order quantity; with no sales at all (NULL or zero average) it
    reports a reorder point of 2 and an order quantity of 3. *)
Theorem simple_reorder_bounds (product_id location_id : Z) (avg : option Q) :
  select_avg_daily_sales db product_id (Some location_id)
    (now - Calendar.timedelta 30)%Z = ok avg ->
  (forall a, avg = Some a -> 0 <= a) ->
  exists reorder_point order_quantity,
    let d := AutoReorder._simple_reorder_calculation lib db now product_id location_id in
    PyDict.get d "reorder_point" = Some (VFloat reorder_point)
    /\ PyDict.get d "economic_order_quantity" = Some (VFloat order_quantity)
    /\ 0 <= reorder_point <= order_quantity
    /\ ((avg = None \/ exists a, avg = Some a /\ a == 0) ->
        reorder_point == 2 /\ order_quantity == 3).
Proof.
  intros Havg Hnonneg.
  unfold AutoReorder._simple_reorder_calculation, AutoReorder.simple_body.
  rewrite Havg. cbn [bind ok catch_error].
  set (demand := PriceOptimizer.or_else avg (1 # 10)).
  assert (Hpos : 0 < demand) by (apply or_else_pos; [reflexivity | exact Hnonneg]).
  eexists _, _. cbn zeta.
  split; [reflexivity|]. split; [reflexivity|]. split; [split|].
  - apply py_round_nonneg. lra.
  - apply py_round_mono. lra.
  - intros Hnone.
    assert (Hd : demand = 1 # 10).
    { subst demand. destruct Hnone as [-> | (a & -> & Ha)]; [reflexivity|].
      unfold PriceOptimizer.or_else. apply Qeq_bool_iff in Ha. now rewrite Ha. }
    rewrite Hd. split; reflexivity.
Qed.

End PriceErrors.


(** ** The properties on the example store *)

Lemma example_fresh_consistent : Invariant.consistent Example.fresh.
Proof.
  exact (new_forecaster_consistent ∅ files_paired_empty).
Qed.

Lemma out_of_stock_ranked_first_witness :
  let out := fst (AutoReorder.generate_reorder_suggestions Example.lib ExampleStock.db
                    Example.now Example.fresh None) in
  exists a b,
    out !! 1%nat = Some a /\ out !! 0%nat = Some b
    /\ Invariant.current_stock_of a = Some 4 /\ Invariant.current_stock_of b = Some 0
    /\ (0 < 1)%nat.
Proof.
  cbn zeta. eexists. eexists.
  split; [vm_compute; reflexivity|].
  split; [vm_compute; reflexivity|].
  split; [vm_compute; reflexivity|].
  split; [vm_compute; reflexivity|].
  eapply (out_of_stock_ranked_first Example.lib ExampleStock.db Example.now
            Example.fresh None 1 0 _ _ 4 0).
  - vm_compute. reflexivity.
  - vm_compute. reflexivity.
  - vm_compute. reflexivity.
  - vm_compute. reflexivity.
  - lia.
  - lia.
Defined.

Lemma train_success_persists_witness :
  let trained := snd (Forecaster.train_demand_model Example.lib Example.db Example.now
                        Example.fresh 1) in
  exists m sc,
    models trained !! 1 = Some m
    /\ scalers trained !! 1 = Some sc
    /\ files trained !! Forecaster.model_filename 1 = Some (ModelArtifact m)
    /\ files trained !! Forecaster.scaler_filename 1 = Some (ScalerArtifact sc).
Proof.
  eapply (train_success_persists Example.lib Example.db Example.now Example.fresh _ 1).
  - apply surjective_pairing.
  - vm_compute. reflexivity.
Defined.

Lemma train_frames_other_products_witness :
  let trained := snd (Forecaster.train_demand_model Example.lib Example.db Example.now
                        Example.with_lag_model 5) in
  models trained !! 1 = models Example.with_lag_model !! 1
  /\ scalers trained !! 1 = scalers Example.with_lag_model !! 1
  /\ files trained !! Forecaster.model_filename 1
     = files Example.with_lag_model !! Forecaster.model_filename 1
  /\ files trained !! Forecaster.scaler_filename 1
     = files Example.with_lag_model !! Forecaster.scaler_filename 1.
Proof.
  eapply (train_frames_other_products Example.lib Example.db Example.now
            Example.with_lag_model _ 5 1).
  - apply surjective_pairing.
  - discriminate.
Defined.


Lemma predict_demand_loads_stored_model_witness :
  let stored := Api.new_forecaster
                  (files (snd (Forecaster.train_demand_model Example.lib Example.db
                                 Example.now Example.fresh 1))) in
  exists a,
    files stored !! Forecaster.model_filename 1 = Some a
    /\ exists m sc,
         a = ModelArtifact m
         /\ files stored !! Forecaster.scaler_filename 1 = Some (ScalerArtifact sc)
         /\ let loaded := {| models := <[1 := m]> (models stored);
                             scalers := <[1 := sc]> (scalers stored);
                             files := files stored |} in
            Forecaster.predict_demand Example.lib Example.db Example.now stored 1 3
            = (catch_error (Forecaster.forecast Example.lib Example.db Example.now
                              loaded 1 3), loaded).
Proof.
  cbn zeta. eexists. split; [vm_compute; reflexivity|].
  apply (predict_demand_loads_stored_model Example.lib Example.db Example.now).
  - apply new_forecaster_consistent.
    eapply (train_keeps_consistency Example.lib Example.db Example.now Example.fresh).
    + exact example_fresh_consistent.
    + apply surjective_pairing.
  - reflexivity.
  - vm_compute. reflexivity.
Defined.

Lemma trained_model_survives_in_files_witness :
  let trained := snd (Forecaster.train_demand_model Example.lib Example.db Example.now
                        Example.fresh 1) in
  Api.get_demand_forecast Example.lib Example.db Example.now (files trained) 1 3
  = (fst (Forecaster.predict_demand Example.lib Example.db Example.now trained 1 3),
     files trained).
Proof.
  eapply (trained_model_survives_in_files Example.lib Example.db Example.now
            Example.fresh _ 1 3).
  - apply surjective_pairing.
  - vm_compute. reflexivity.
Defined.

Lemma predict_demand_repeatable_witness :
  let first := Forecaster.predict_demand Example.lib Example.db Example.now
                 Example.fresh 5 3 in
  Forecaster.predict_demand Example.lib Example.db Example.now (snd first) 5 3
  = (fst first, snd first).
Proof.
  apply (predict_demand_repeatable Example.lib Example.db Example.now Example.fresh).
  - apply surjective_pairing.
  - vm_compute. reflexivity.
Defined.

Lemma predict_demand_insufficient_history_witness :
  Forecaster.predict_demand Example.lib Example.db Example.now Example.fresh 2 7
  = (error_dict "Insufficient historical data", Example.fresh).
Proof.
  eapply predict_demand_insufficient_history.
  - reflexivity.
  - reflexivity.
  - vm_compute. reflexivity.
  - vm_compute. reflexivity.
Defined.

Lemma reorder_point_falls_back_witness :
  AutoReorder.calculate_reorder_point Example.lib Example.db Example.now Example.fresh
    2 1 (95 # 100)
  = (AutoReorder._simple_reorder_calculation Example.lib Example.db Example.now 2 1,
     Example.fresh).
Proof.
  eapply reorder_point_falls_back_on_short_history.
  - reflexivity.
  - reflexivity.
  - vm_compute. reflexivity.
  - vm_compute. reflexivity.
Defined.

Lemma bulk_training_witness :
  let run := Api.train_all_loop Example.lib Example.db Example.now [1; 2; 5]%Z
               Example.fresh [] in
  map fst (fst run) = [1; 2; 5]%Z
  /\ (forall name, is_Some (files Example.fresh !! name) ->
                   is_Some (files (snd run) !! name))
  /\ Forall (fun pr =>
               is_error (snd pr) = false ->
               is_Some (files (snd run) !! Forecaster.model_filename (fst pr))
               /\ is_Some (files (snd run) !! Forecaster.scaler_filename (fst pr)))
            (fst run).
Proof.
  apply (bulk_training_covers_every_product Example.lib Example.db Example.now).
  apply surjective_pairing.
Defined.

Lemma train_reports_split_sizes_witness :
  let d := fst (Forecaster.train_demand_model Example.lib Example.db Example.now
                  Example.fresh 5) in
  exists sales table n_train n_test,
    Forecaster.get_sales_data Example.db Example.now (Some 5%Z) 365 = ok sales
    /\ training_table Example.lib 5 sales = ok table
    /\ (30 <= Num.len sales)%Z
    /\ (20 <= Num.len table)%Z
    /\ PyDict.get d "training_samples" = Some (VInt n_train)
    /\ PyDict.get d "test_samples" = Some (VInt n_test)
    /\ (n_train + n_test = Num.len table)%Z
    /\ (0 < n_test)%Z
    /\ (fst (Forecaster.train_test_split table) ++ snd (Forecaster.train_test_split table))%list
       = table.
Proof.
  eapply (train_reports_split_sizes Example.lib Example.db Example.now Example.fresh _ 5).
  - apply surjective_pairing.
  - vm_compute. reflexivity.
Defined.


Lemma optimize_price_target_margin_one_witness :
  is_error (PriceOptimizer.optimize_price Example.lib Example.db Example.now 1 0 1) = true.
Proof.
  apply optimize_price_target_margin_one. reflexivity.
Defined.

Lemma optimize_price_needs_a_price_witness :
  is_error (PriceOptimizer.optimize_price Example.lib
              {| select_sales := select_sales Example.db;
                 select_price_history := select_price_history Example.db;
                 select_product := fun _ =>
                   ok (Some {| p_price := None; p_cost := Some 30%Q; p_name := "router" |});
                 select_avg_daily_sales := select_avg_daily_sales Example.db;
                 select_daily_sales := select_daily_sales Example.db;
                 select_low_stock := select_low_stock Example.db |}
              Example.now 1 0 (3 # 10)) = true.
Proof.
  eapply optimize_price_needs_a_price.
  - reflexivity.
  - left. reflexivity.
Defined.

Lemma optimize_price_default_elasticity_witness :
  PyDict.get (PriceOptimizer.optimize_price Example.lib Example.db Example.now 3 0 (3 # 10))
    "price_elasticity" = Some (VFloat (Num.py_round (- 1) 3)).
Proof.
  eapply (optimize_price_default_elasticity Example.lib Example.db Example.now 3 0 (3 # 10)).
  - vm_compute. reflexivity.
  - reflexivity.
  - vm_compute. reflexivity.
Defined.

Lemma elasticity_needs_enough_data_witness :
  let d := PriceOptimizer.get_price_elasticity Example.lib Example.db Example.now 1 in
  exists rows buckets slope,
    select_price_history Example.db 1 (Example.now - Calendar.timedelta 180)%Z = ok rows
    /\ (10 <= Num.len rows)%Z
    /\ price_buckets Example.lib rows = ok buckets
    /\ (3 <= Num.len buckets)%Z
    /\ PyDict.get d "data_points" = Some (VInt (Num.len buckets))
    /\ PyDict.get d "price_elasticity" = Some (VFloat (Num.py_round slope 3))
    /\ PyDict.get d "interpretation"
       = Some (VStr (PriceOptimizer._interpret_elasticity slope)).
Proof.
  eapply (elasticity_needs_enough_data Example.lib Example.db Example.now 1).
  - reflexivity.
  - vm_compute. reflexivity.
Defined.

Lemma simple_reorder_bounds_witness :
  exists reorder_point order_quantity,
    let d := AutoReorder._simple_reorder_calculation Example.lib Example.db Example.now
               3 1 in
    PyDict.get d "reorder_point" = Some (VFloat reorder_point)
    /\ PyDict.get d "economic_order_quantity" = Some (VFloat order_quantity)
    /\ (0 <= reorder_point <= order_quantity)%Q
    /\ ((@None Q = None \/ exists a, @None Q = Some a /\ (a == 0)%Q) ->
        (reorder_point == 2)%Q /\ (order_quantity == 3)%Q).
Proof.
  apply (simple_reorder_bounds Example.lib Example.db Example.now 3 1 None).
  - vm_compute. reflexivity.
  - intros a H. discriminate H.
Defined.
